(** * ValutaTrade Hub: the exchange-rate cache, its resolver and the accounts

    A shallow embedding of [valutatrade_hub/core/utils.py],
    [valutatrade_hub/infra/database.py], [valutatrade_hub/core/currancies.py]
    and of the accounts of [valutatrade_hub/core/models.py] and
    [valutatrade_hub/core/usecase.py], with the properties of the rate
    cache, the refresh cycle, the resolver, the JSON store, the currency
    registry and the use cases stated and proved over it.

    Conventions of the embedding:
    - Python [str] is [string]; [str.upper] is the ASCII upper-casing
      (currency codes are ASCII).
    - Python [float] is the binary64 [float] of [PrimFloat], so [1 / rate]
      is the IEEE division Python performs; the [ZeroDivisionError] Python
      raises on a zero divisor is written out.
    - A [datetime] is a [Z]: microseconds since the epoch, the resolution
      of [datetime]; a [timedelta] is their difference. The stored
      timestamps carry an offset, as the cache format has them.
    - A raised exception is the [Raise] branch of [result]; the exceptions
      modelled are the subclasses of Python's [Exception].
    - A [dict] keyed by strings is a [gmap string _].
    - A file holds the text of a JSON document or text that is none; the
      reads and writes of the operating system themselves succeed. *)

From Stdlib Require Import ZArith String Ascii List PrimFloat DecimalString.
From stdpp Require Import gmap strings.

#[local] Set Warnings "-register-all".

Open Scope string_scope.
Open Scope Z_scope.

(** * Exceptions and results *)

Inductive exn : Type :=
| ApiRequestError (msg : string)
| RateNotFoundError (msg : string)
| FileNotFoundError
| ZeroDivisionError
| TypeError
| OtherException (cls msg : string).

(** [str(e)], as interpolated into the message of the wrapping error. *)
Definition str_exn (e : exn) : string :=
  match e with
  | ApiRequestError msg => msg
  | RateNotFoundError msg => msg
  | FileNotFoundError => ""
  | ZeroDivisionError => "float division by zero"
  | TypeError => "string indices must be integers"
  | OtherException _ msg => msg
  end.

Definition is_ApiRequestError (e : exn) : bool :=
  match e with ApiRequestError _ => true | _ => false end.

Definition is_RateNotFoundError (e : exn) : bool :=
  match e with RateNotFoundError _ => true | _ => false end.

Inductive result (A : Type) : Type :=
| Ok (a : A)
| Raise (e : exn).
Arguments Ok {A} a.
Arguments Raise {A} e.

(** * Strings: [str.upper] *)

Definition upper_ascii (c : ascii) : ascii :=
  let n := nat_of_ascii c in
  if ((97 <=? n) && (n <=? 122))%nat then ascii_of_nat (n - 32) else c.

Fixpoint upper (s : string) : string :=
  match s with
  | EmptyString => EmptyString
  | String c s' => String (upper_ascii c) (upper s')
  end.

(** * The rate cache snapshot *)

Definition datetime : Type := Z.

Definition microseconds_per_second : Z := 1000000.

Definition seconds (n : Z) : Z := n * microseconds_per_second.

(** One stored quote: the value under a key ["FROM_TO"]. *)
Record RateRecord : Type := mkRate {
  rate : float;
  updated_at : datetime;
  source : string
}.

(** The values of the cache dict: a rate record under a pair key, the
    timestamp under ["last_refresh"], the label under ["source"]. *)
Inductive entry : Type :=
| Quote (r : RateRecord)
| Stamp (t : datetime)
| Label (s : string).

Abbreviation snapshot := (gmap string entry).

(** [f"{a}_{b}"] *)
Definition pair_key (a b : string) : string := a ++ "_" ++ b.

(** [rates[key]["rate"]]: subscripting a string with a string raises. *)
Definition entry_rate (e : entry) : result float :=
  match e with
  | Quote r => Ok (rate r)
  | Stamp _ | Label _ => Raise TypeError
  end.

(** [datetime.fromisoformat(rates[key]["updated_at"])] *)
Definition entry_updated_at (e : entry) : result datetime :=
  match e with
  | Quote r => Ok (updated_at r)
  | Stamp _ | Label _ => Raise TypeError
  end.

(** [1 / x] on floats: Python raises on a zero divisor, of either sign. *)
Definition true_div_one (x : float) : result float :=
  if PrimFloat.eqb x 0%float then Raise ZeroDivisionError
  else Ok (PrimFloat.div 1%float x).

(** [find_rate(rates, a, b)] *)
Definition find_rate (rates : snapshot) (a b : string)
  : result (float * datetime) :=
  match rates !! pair_key a b with
  | Some e =>
      match entry_rate e with
      | Raise x => Raise x
      | Ok r =>
          match entry_updated_at e with
          | Raise x => Raise x
          | Ok t => Ok (r, t)
          end
      end
  | None =>
      match rates !! pair_key b a with
      | Some e =>
          match entry_rate e with
          | Raise x => Raise x
          | Ok r =>
              match true_div_one r with
              | Raise x => Raise x
              | Ok q =>
                  match entry_updated_at e with
                  | Raise x => Raise x
                  | Ok t => Ok (q, t)
                  end
              end
          end
      | None => Raise (RateNotFoundError (a ++ "→" ++ b))
      end
  end.

(** * Effects: state and exceptions

    A Python call is a function of the state it runs in, returning a value
    or raising, together with the state it leaves. Effects performed before
    a raise stay performed. *)

Definition M (S A : Type) : Type := S -> result A * S.

Definition ret {S A : Type} (a : A) : M S A := fun s => (Ok a, s).

Definition raise {S A : Type} (e : exn) : M S A := fun s => (Raise e, s).

Definition bind {S A B : Type} (m : M S A) (k : A -> M S B) : M S B :=
  fun s =>
    match m s with
    | (Ok a, s') => k a s'
    | (Raise e, s') => (Raise e, s')
    end.

(** [try: m  except <handles>: h] *)
Definition try_except {S A : Type} (m : M S A) (handles : exn -> bool)
    (h : exn -> M S A) : M S A :=
  fun s =>
    match m s with
    | (Ok a, s') => (Ok a, s')
    | (Raise e, s') => if handles e then h e s' else (Raise e, s')
    end.

(** A value or exception computed without touching the state. *)
Definition lift_result {S A : Type} (r : result A) : M S A := fun s => (r, s).

Declare Scope py_scope.
Delimit Scope py_scope with py.
Notation "'do' x <- m ; k" := (bind m (fun x => k))
  (at level 10, x name, m at level 100, k at level 200) : py_scope.
Notation "'do' ' pat <- m ; k" :=
  (bind m (fun x => match x with pat => k end))
  (at level 10, pat pattern, m at level 100, k at level 200) : py_scope.
Notation "'run' m ; k" := (bind m (fun _ => k))
  (at level 10, m at level 100, k at level 200) : py_scope.
Open Scope py_scope.

(** * The environment of the rate subsystem *)

(** One quote as a provider reports it. *)
Record Observation : Type := mkObs {
  obs_from : string;
  obs_to : string;
  obs_rate : float;
  observed_at : datetime
}.

(** What one [fetch()] of a source client yields. *)
Inductive FetchResult : Type :=
| SourceUnavailable
| Fetched (observations : list Observation).

(** Everything outside the process that the subsystem reads or writes:
    the cache file (absent before the first access), the wall clock, the
    settings, and what each provider will answer to its next requests. *)
Record Env : Type := mkEnv {
  rates_file : option snapshot;
  clock : datetime;
  settings : gmap string Z;
  coingecko_feed : list FetchResult;
  exchangerate_feed : list FetchResult
}.

Definition set_rates_file (f : option snapshot) (e : Env) : Env :=
  {| rates_file := f; clock := clock e; settings := settings e;
     coingecko_feed := coingecko_feed e;
     exchangerate_feed := exchangerate_feed e |}.

(** The calls the resolver makes on its collaborators, in order of
    occurrence, newest first. *)
Inductive event : Type :=
| EvLoadRates
| EvUpdateRates (source : option string).

Record World : Type := mkWorld {
  env : Env;
  trace : list event
}.

Definition log (ev : event) : M World unit :=
  fun w => (Ok tt, {| env := env w; trace := ev :: trace w |}).

(** Runs a computation over the environment inside the world. *)
Definition lift_env {A : Type} (m : M Env A) : M World A :=
  fun w => let '(r, e') := m (env w) in (r, {| env := e'; trace := trace w |}).

Definition is_update (ev : event) : bool :=
  match ev with EvUpdateRates _ => true | EvLoadRates => false end.

Definition is_load (ev : event) : bool :=
  match ev with EvLoadRates => true | EvUpdateRates _ => false end.

(** The number of refresh cycles requested so far. *)
Definition update_calls (w : World) : nat := length (List.filter is_update (trace w)).

Definition load_calls (w : World) : nat := length (List.filter is_load (trace w)).

(** [datetime.now()] and [datetime.now(timezone.utc)]: a read of the clock. *)
Definition datetime_now : M World datetime := fun w => (Ok (clock (env w)), w).

(** [SettingsLoader().get(key, default)] *)
Definition settings_get (key : string) (fallback : Z) : M World Z :=
  fun w => (Ok (default fallback (settings (env w) !! key)), w).

(** * The parser service

    [valutatrade_hub.parser_service] is the collaborator behind a refresh
    cycle: the parser configuration, the two source clients and the
    updater. [update_rates] is defined over this interface; what an
    implementation does to the environment is its own business.
    [run_update clients] stands for
    [RatesUpdater(clients, RatesStorage()).run_update()]. *)

Class ParserService : Type := {
  Config : Type;
  Client : Type;
  ParserConfig : M Env Config;
  CoinGeckoClient : Config -> M Env Client;
  ExchangeRateApiClient : Config -> M Env Client;
  run_update : list Client -> M Env Z
}.

(** Modelled from the spec: [RatesStorage.load_rates], the load operation
    of the rate cache store. It returns the stored snapshot, and an empty
    snapshot, creating the file, when no cache exists yet. *)
Definition load_rates : M World snapshot :=
  run log EvLoadRates;
  lift_env (fun e =>
    match rates_file e with
    | Some rates => (Ok rates, e)
    | None => (Ok ∅, set_rates_file (Some ∅) e)
    end).

Section Resolver.

Context {PS : ParserService}.

(** The body of the [try] block of [update_rates]. *)
Definition refresh_cycle (source : option string) : M Env Z :=
  do config <- ParserConfig;
  do clients <-
    (if bool_decide (source = Some "coingecko") then
       do c <- CoinGeckoClient config; ret [c]
     else if bool_decide (source = Some "exchangerate") then
       do c <- ExchangeRateApiClient config; ret [c]
     else
       do c1 <- CoinGeckoClient config;
       do c2 <- ExchangeRateApiClient config;
       ret [c1; c2]);
  run_update clients.

Definition no_rates_message : string :=
  "Не удалось получить ни одного курса от всех клиентов.".

Definition update_failed_message (e : exn) : string :=
  "Не удалось обновить курсы: " ++ str_exn e.

(** [update_rates(source)]; the entry is recorded in the trace. *)
Definition update_rates (source : option string) : M World unit :=
  run log (EvUpdateRates source);
  do updated_cnt <-
    try_except (lift_env (refresh_cycle source)) (fun _ => true)
      (fun e =>
         if is_ApiRequestError e then raise e
         else raise (ApiRequestError (update_failed_message e)));
  if updated_cnt =? 0 then raise (ApiRequestError no_rates_message)
  else ret tt.

(** [not rates or "last_refresh" not in rates] *)
Definition cache_is_empty (rates : snapshot) : bool :=
  bool_decide (rates = ∅)
  || negb (bool_decide (is_Some (rates !! "last_refresh"))).

(** [(now - updated_at).total_seconds() > ttl] *)
Definition older_than (now updated : datetime) (ttl : Z) : bool :=
  seconds ttl <? now - updated.

(** [get_exchange_rate(from_currency, to_currency)] *)
Definition get_exchange_rate (from_currency to_currency : string)
  : M World (float * datetime) :=
  let from_currency := upper from_currency in
  let to_currency := upper to_currency in
  if String.eqb from_currency to_currency then
    do now <- datetime_now; ret (1%float, now)
  else
    do rates <- load_rates;
    do rates <-
      (if cache_is_empty rates then
         run update_rates None; load_rates
       else ret rates);
    do found <-
      try_except (lift_result (find_rate rates from_currency to_currency))
        is_RateNotFoundError
        (fun _ =>
           run update_rates None;
           do rates <- load_rates;
           lift_result (find_rate rates from_currency to_currency));
    do ttl <- settings_get "RATES_TTL_SECONDS" 3600;
    do now <- datetime_now;
    if older_than now (snd found) ttl then
      run update_rates None;
      do rates <- load_rates;
      lift_result (find_rate rates from_currency to_currency)
    else ret found.


End Resolver.

(** * The updater of the spec *)

Inductive SourceClient : Type :=
| CoinGecko
| ExchangeRateApi.

Definition client_label (c : SourceClient) : string :=
  match c with
  | CoinGecko => "CoinGecko"
  | ExchangeRateApi => "ExchangeRate-API"
  end.

(** Modelled from the spec: the [fetch()] of a rate source client. One
    request is made: the provider's next answer is consumed. A provider
    with nothing left to answer is unreachable. *)
Definition fetch (c : SourceClient) (e : Env) : FetchResult * Env :=
  match c with
  | CoinGecko =>
      match coingecko_feed e with
      | [] => (SourceUnavailable, e)
      | r :: rest =>
          (r, {| rates_file := rates_file e; clock := clock e;
                 settings := settings e; coingecko_feed := rest;
                 exchangerate_feed := exchangerate_feed e |})
      end
  | ExchangeRateApi =>
      match exchangerate_feed e with
      | [] => (SourceUnavailable, e)
      | r :: rest =>
          (r, {| rates_file := rates_file e; clock := clock e;
                 settings := settings e; coingecko_feed := coingecko_feed e;
                 exchangerate_feed := rest |})
      end
  end.

(** Modelled from the spec: the updater invokes [fetch()] on each source
    in order. *)
Fixpoint poll (clients : list SourceClient) (e : Env)
  : list (SourceClient * FetchResult) * Env :=
  match clients with
  | [] => ([], e)
  | c :: cs =>
      let '(r, e1) := fetch c e in
      let '(rs, e2) := poll cs e1 in
      ((c, r) :: rs, e2)
  end.

(** Modelled from the spec: a failing source is skipped; the observations
    of the others are kept, in source order. *)
Definition fetched_quotes (polled : list (SourceClient * FetchResult))
  : list (string * Observation) :=
  flat_map (fun cr =>
    match snd cr with
    | SourceUnavailable => []
    | Fetched obs => map (pair (client_label (fst cr))) obs
    end) polled.

Definition quote_of (label : string) (o : Observation) : entry :=
  Quote {| rate := obs_rate o; updated_at := observed_at o; source := label |}.

(** Modelled from the spec: merging observations into a snapshot. A new
    entry overwrites the entry of the same key, so a later source wins;
    other entries are preserved. *)
Definition merge_quotes (quotes : list (string * Observation)) (snap : snapshot)
  : snapshot :=
  fold_left (fun m q => <[pair_key (obs_from (snd q)) (obs_to (snd q))
                           := quote_of (fst q) (snd q)]> m) quotes snap.

(** Modelled from the spec: one run of the rate updater. With zero
    observations merged nothing is written and the count is zero.
    Otherwise the observations are merged into the existing snapshot,
    [last_refresh] is stamped with the current time, the snapshot is
    persisted, and the number of pairs updated in this run is returned. *)
Definition spec_run_update (clients : list SourceClient) : M Env Z :=
  fun e =>
    let '(polled, e1) := poll clients e in
    let quotes := fetched_quotes polled in
    match quotes with
    | [] => (Ok 0, e1)
    | _ :: _ =>
        let merged := merge_quotes quotes (default ∅ (rates_file e1)) in
        let stamped :=
          <["source" := Label "ParserService"]>
            (<["last_refresh" := Stamp (clock e1)]> merged) in
        (Ok (Z.of_nat (size (merge_quotes quotes ∅))),
         set_rates_file (Some stamped) e1)
    end.

(** Modelled from the spec: the parser service with its crypto-market and
    fiat-rate clients and the updater above. *)
Definition SpecParserService : ParserService := {|
  Config := unit;
  Client := SourceClient;
  ParserConfig := ret tt;
  CoinGeckoClient := fun _ => ret CoinGecko;
  ExchangeRateApiClient := fun _ => ret ExchangeRateApi;
  run_update := spec_run_update
|}.

(** The sources a refresh cycle with filter [source] is configured with. *)
Definition configured_sources (source : option string) : list SourceClient :=
  if bool_decide (source = Some "coingecko") then [CoinGecko]
  else if bool_decide (source = Some "exchangerate") then [ExchangeRateApi]
  else [CoinGecko; ExchangeRateApi].

Definition unavailable (cr : SourceClient * FetchResult) : Prop :=
  snd cr = SourceUnavailable.

(** A source contributes when its fetch yields at least one observation. *)
Definition contributes (cr : SourceClient * FetchResult) : Prop :=
  exists o obs, snd cr = Fetched (o :: obs).

(** * The JSON store *)

(** What a file holds: the text of a document, as [json.dump] writes it,
    or text that is no JSON document (an empty file included), with the
    message [json.load] reports on it. *)
Inductive file (A : Type) : Type :=
| Document (data : A)
| Malformed (msg : string).
Arguments Document {A} data.
Arguments Malformed {A} msg.

(** [json.JSONDecodeError], a subclass of [ValueError]. *)
Definition JSONDecodeError (msg : string) : exn :=
  OtherException "JSONDecodeError" msg.

Module DatabaseManager.

Inductive json : Type :=
| JNull
| JBool (b : bool)
| JInt (z : Z)
| JFloat (x : float)
| JStr (s : string)
| JList (items : list json)
| JDict (items : list (string * json)).

(** The files on disk, each with what it holds. *)
Abbreviation FileSystem := (gmap string (file json)).

(** [os.path.exists(path)] *)
Definition path_exists (path : string) : M FileSystem bool :=
  fun fs => (Ok (bool_decide (is_Some (fs !! path))), fs).

(** [json.load(open(path))] *)
Definition read_json (path : string) : M FileSystem json :=
  fun fs =>
    match fs !! path with
    | Some (Document data) => (Ok data, fs)
    | Some (Malformed msg) => (Raise (JSONDecodeError msg), fs)
    | None => (Raise FileNotFoundError, fs)
    end.

(** [DatabaseManager.save(path, data)] *)
Definition save (path : string) (data : json) : M FileSystem unit :=
  fun fs => (Ok tt, <[path := Document data]> fs).

(** [DatabaseManager.load(path)] *)
Definition load (path : string) : M FileSystem json :=
  do present <- path_exists path;
  if negb present then
    run save path (JList []);
    raise FileNotFoundError
  else read_json path.

(** [bool(data)] *)
Definition truthy (data : json) : bool :=
  match data with
  | JNull => false
  | JBool b => b
  | JInt z => negb (z =? 0)
  | JFloat x => negb (PrimFloat.eqb x 0%float)
  | JStr s => negb (String.eqb s "")
  | JList items => match items with [] => false | _ :: _ => true end
  | JDict items => match items with [] => false | _ :: _ => true end
  end.

(** [key in data]: membership in a list, key of a dict, substring of a
    string; the other documents are not containers. *)
Definition contains (key : string) (data : json) : result bool :=
  match data with
  | JList items =>
      Ok (existsb (fun j => match j with JStr s => String.eqb s key | _ => false end)
            items)
  | JDict items => Ok (existsb (fun kv => String.eqb (fst kv) key) items)
  | JStr s => Ok (match String.index 0 key s with Some _ => true | None => false end)
  | JNull | JBool _ | JInt _ | JFloat _ => Raise TypeError
  end.

End DatabaseManager.

Definition is_FileNotFoundError (e : exn) : bool :=
  match e with FileNotFoundError => true | _ => false end.

(** [load_json(path)] *)
Definition load_json (path : string) : M DatabaseManager.FileSystem DatabaseManager.json :=
  try_except (DatabaseManager.load path) is_FileNotFoundError
    (fun _ => ret (DatabaseManager.JList [])).

(** [save_json(path, data)] *)
Definition save_json (path : string) (data : DatabaseManager.json)
  : M DatabaseManager.FileSystem unit :=
  DatabaseManager.save path data.

(** * Counting refresh cycles *)

(** [m] requests at most [n] refresh cycles, from whatever world it is
    started in. *)
Definition refreshes_at_most {A : Type} (n : nat) (m : M World A) : Prop :=
  forall w, (update_calls (snd (m w)) <= update_calls w + n)%nat.

(** * Sample environments

    Concrete caches, clocks and provider feeds on which the definitions
    above are evaluated. [T0] is 2023-11-14 22:13:20 UTC. *)

Definition T0 : datetime := seconds 1700000000.

Definition btc_usd : RateRecord :=
  {| rate := 50000%float; updated_at := T0; source := "CoinGecko" |}.

Definition usd_btc : RateRecord :=
  {| rate := 0.5%float; updated_at := T0 - seconds 60; source := "manual" |}.

(** The cache of the scenario of the spec: [BTC_USD] quoted at [T0]. *)
Definition btc_cache : snapshot :=
  <["BTC_USD" := Quote btc_usd]>
    (<["last_refresh" := Stamp T0]> (<["source" := Label "ParserService"]> ∅)).

(** A cache holding both directions of one pair. *)
Definition both_ways_cache : snapshot :=
  <["USD_BTC" := Quote usd_btc]> btc_cache.

(** CoinGecko keeps answering with the BTC quote. *)
Definition btc_answer : FetchResult :=
  Fetched [{| obs_from := "BTC"; obs_to := "USD";
              obs_rate := 50000%float; observed_at := T0 |}].

(** No cache file yet; CoinGecko quotes BTC only; the fiat provider is
    unreachable. *)
Definition fresh_world : World :=
  {| env := {| rates_file := None; clock := T0 + seconds 10; settings := ∅;
               coingecko_feed := [btc_answer; btc_answer; btc_answer];
               exchangerate_feed := [] |};
     trace := [] |}.

(** The fiat provider reports a day-old quote, once it answers at all. *)
Definition eur_answer : FetchResult :=
  Fetched [{| obs_from := "EUR"; obs_to := "USD";
              obs_rate := 1.25%float; observed_at := T0 - seconds 86400 |}].

Definition flaky_world : World :=
  {| env := {| rates_file := None; clock := T0 + seconds 10; settings := ∅;
               coingecko_feed := [btc_answer; btc_answer; btc_answer];
               exchangerate_feed := [SourceUnavailable; eur_answer; eur_answer] |};
     trace := [] |}.

(** A populated cache read [age] seconds after its BTC quote was stored. *)
Definition cached_world (age : Z) : World :=
  {| env := {| rates_file := Some btc_cache; clock := T0 + seconds age;
               settings := {["RATES_TTL_SECONDS" := 3600]};
               coingecko_feed := [btc_answer];
               exchangerate_feed := [] |};
     trace := [] |}.

(** Every provider is unreachable. *)
Definition offline_world : World :=
  {| env := {| rates_file := Some btc_cache; clock := T0 + seconds 10;
               settings := ∅; coingecko_feed := []; exchangerate_feed := [] |};
     trace := [] |}.

(** A cache whose only quote carries a zero rate. *)
Definition zero_rate_cache : snapshot :=
  <["BTC_USD" := Quote {| rate := 0%float; updated_at := T0; source := "manual" |}]>
    btc_cache.

Definition zero_rate_world : World :=
  {| env := {| rates_file := Some zero_rate_cache;
               clock := T0 + seconds 10; settings := ∅;
               coingecko_feed := [btc_answer]; exchangerate_feed := [] |};
     trace := [] |}.

(** The populated cache two hours after its quote, every provider
    unreachable. *)
Definition stale_offline_world : World :=
  {| env := {| rates_file := Some btc_cache; clock := T0 + seconds 7200;
               settings := ∅; coingecko_feed := []; exchangerate_feed := [] |};
     trace := [] |}.

(** A cache file holding the quote but no [last_refresh], every provider
    unreachable. *)
Definition unstamped_offline_world : World :=
  {| env := {| rates_file := Some {["BTC_USD" := Quote btc_usd]};
               clock := T0 + seconds 10; settings := ∅;
               coingecko_feed := []; exchangerate_feed := [] |};
     trace := [] |}.

(** The claim that a call refreshes at most once, as a proposition. *)
Definition at_most_one_refresh_per_call : Prop :=
  forall (PS : ParserService) (f t : string) (w : World),
    f <> t ->
    (update_calls (snd (get_exchange_rate f t w)) <= update_calls w + 1)%nat.


(** A parser service that fails: its fiat client cannot be built, for want
    of a configured key, and its updater cannot reach the providers. *)
Definition FailingParserService : ParserService := {|
  Config := unit;
  Client := SourceClient;
  ParserConfig := ret tt;
  CoinGeckoClient := fun _ => ret CoinGecko;
  ExchangeRateApiClient :=
    fun _ => raise (OtherException "KeyError" "'EXCHANGERATE_API_KEY'");
  run_update := fun _ => raise (ApiRequestError "503 Service Unavailable")
|}.
(** * The currency registry ([core/currancies.py])

    [str.strip], [str.isupper] and [len] follow the convention of
    [upper]: they are the ASCII functions, a byte above 127 being neither
    a letter nor white space. *)

Definition ValueError (msg : string) : exn := OtherException "ValueError" msg.

Definition CurrencyNotFoundError (code : string) : exn :=
  OtherException "CurrencyNotFoundError" code.

(** [c.isspace()]: tab to carriage return, the four separators, space. *)
Definition is_space (c : ascii) : bool :=
  let n := nat_of_ascii c in
  (((9 <=? n) && (n <=? 13)) || ((28 <=? n) && (n <=? 32)))%nat.

Definition is_lower_letter (c : ascii) : bool :=
  let n := nat_of_ascii c in ((97 <=? n) && (n <=? 122))%nat.

Definition is_upper_letter (c : ascii) : bool :=
  let n := nat_of_ascii c in ((65 <=? n) && (n <=? 90))%nat.

Fixpoint string_exists (p : ascii -> bool) (s : string) : bool :=
  match s with
  | EmptyString => false
  | String c s' => p c || string_exists p s'
  end.

(** [s.lstrip()] *)
Fixpoint lstrip (s : string) : string :=
  match s with
  | EmptyString => EmptyString
  | String c s' => if is_space c then lstrip s' else s
  end.

(** [s.rstrip()] *)
Fixpoint rstrip (s : string) : string :=
  match s with
  | EmptyString => EmptyString
  | String c s' =>
      match rstrip s' with
      | EmptyString => if is_space c then EmptyString else String c EmptyString
      | String d r => String c (String d r)
      end
  end.

(** [s.strip()] *)
Definition strip (s : string) : string := rstrip (lstrip s).

(** [s.isupper()]: some letter, and no lower-case letter. *)
Definition isupper (s : string) : bool :=
  string_exists is_upper_letter s && negb (string_exists is_lower_letter s).

(** [not s], for a string. *)
Definition is_empty (s : string) : bool :=
  match s with EmptyString => true | String _ _ => false end.

Inductive CurrencyType : Type :=
| FIAT
| CRYPTO.

Record CurrencyInfo : Type := mkCurrencyInfo {
  name : string;
  code : string;
  currency_type : CurrencyType;
  issuing_country : option string;
  algorithm : option string;
  market_cap : option float
}.

(** A [BaseCurrency] object holds its [info]; [Fiat] and [Crypto] differ in
    their [currency_type] and in how they are displayed. *)
Abbreviation BaseCurrency := CurrencyInfo.

(** [BaseCurrency._validate_info(info)] *)
Definition _validate_info (info : CurrencyInfo) : result unit :=
  if is_empty (name info) || is_empty (strip (name info)) then
    Raise (ValueError "Название валюты не может быть пустым")
  else if is_empty (code info) || negb (isupper (code info)) then
    Raise (ValueError "Код валюты должен быть в верхнем регистре")
  else if negb ((2 <=? String.length (code info))%nat
                && (String.length (code info) <=? 5)%nat) then
    Raise (ValueError "Код валюты должен содержать от 2 до 5 символов")
  else if string_exists (Ascii.eqb " "%char) (code info) then
    Raise (ValueError "Код валюты не должен содержать пробелов")
  else Ok tt.

(** [Fiat(name, code, issuing_country)] *)
Definition Fiat (name code issuing_country : string) : result BaseCurrency :=
  let info := {| name := name; code := code; currency_type := FIAT;
                 issuing_country := Some issuing_country;
                 algorithm := None; market_cap := None |} in
  match _validate_info info with
  | Raise e => Raise e
  | Ok _ =>
      if is_empty issuing_country || is_empty (strip issuing_country) then
        Raise (ValueError "Страна-эмитент не может быть пустой")
      else Ok info
  end.

(** [Crypto(name, code, algorithm, market_cap)] *)
Definition Crypto (name code algorithm : string) (market_cap : float)
  : result BaseCurrency :=
  let info := {| name := name; code := code; currency_type := CRYPTO;
                 issuing_country := None;
                 algorithm := Some algorithm; market_cap := Some market_cap |} in
  match _validate_info info with
  | Raise e => Raise e
  | Ok _ =>
      if is_empty algorithm || is_empty (strip algorithm) then
        Raise (ValueError "Алгоритм не может быть пустым")
      else if PrimFloat.ltb market_cap 0%float then
        Raise (ValueError "Рыночная капитализация не может быть отрицательной")
      else Ok info
  end.

Module CurrencyRegistry.

(** The [_currencies] dict of the registry singleton. *)
Abbreviation Registry := (gmap string BaseCurrency).

(** [CurrencyRegistry.register(currency)] *)
Definition register (currency : BaseCurrency) : M Registry unit :=
  fun reg => (Ok tt, <[code currency := currency]> reg).

(** [CurrencyRegistry.get(code)] *)
Definition get (code : string) : M Registry BaseCurrency :=
  fun reg =>
    let normalized_code := strip (upper code) in
    match reg !! normalized_code with
    | None => (Raise (CurrencyNotFoundError normalized_code), reg)
    | Some currency => (Ok currency, reg)
    end.

(** [CurrencyRegistry._initialize_registry()] *)
Definition _initialize_registry : M Registry unit :=
  do c <- lift_result (Fiat "Доллар США" "USD" "Соединенные Штаты"); run register c;
  do c <- lift_result (Fiat "Евро" "EUR" "Европейский союз"); run register c;
  do c <- lift_result (Fiat "Российский рубль" "RUB" "Россия"); run register c;
  do c <- lift_result (Fiat "Британский фунт" "GBP" "Великобритания"); run register c;
  do c <- lift_result (Crypto "Биткойн" "BTC" "SHA-256" 1120000000000%float);
  run register c;
  do c <- lift_result (Crypto "Эфириум" "ETH" "Ethash" 390000000000%float);
  run register c;
  do c <- lift_result (Crypto "Солана" "SOL" "Proof of History" 10000000000%float);
  register c.

End CurrencyRegistry.

(** [_registry = CurrencyRegistry()]: the registry as the module creates
    it. *)
Definition _registry : CurrencyRegistry.Registry :=
  snd (CurrencyRegistry._initialize_registry ∅).

(** [get_currency(code)] *)
Definition get_currency (code : string) : M CurrencyRegistry.Registry BaseCurrency :=
  CurrencyRegistry.get code.

(** The codes the module registers. *)
Definition registered_codes : list string :=
  ["USD"; "EUR"; "RUB"; "GBP"; "BTC"; "ETH"; "SOL"].

(** * Accounts and portfolios ([core/models.py], [core/usecase.py])

    The users and portfolios documents are typed as the code writes them:
    a user entry has the five keys of [get_user_info], a portfolio entry
    has [user_id] and [wallets], a wallet entry has [balance]. A dict that
    is iterated is a list of items in insertion order, with one item per
    key. [len] of a string follows the ASCII convention. *)

(** [d.get(k)] *)
Fixpoint dict_get {V : Type} (k : string) (d : list (string * V)) : option V :=
  match d with
  | [] => None
  | (k', v) :: rest => if String.eqb k' k then Some v else dict_get k rest
  end.

(** [d[k] = v]: the value of an existing key is replaced where it stands,
    a new key goes last. *)
Fixpoint dict_set {V : Type} (k : string) (v : V) (d : list (string * V))
  : list (string * V) :=
  match d with
  | [] => [(k, v)]
  | (k', v') :: rest =>
      if String.eqb k' k then (k, v) :: rest else (k', v') :: dict_set k v rest
  end.

(** What the code takes from the platform and the configuration: SHA-256
    as a hex digest, [str] of a POSIX timestamp, the fixed-point and time
    formats of the messages, and the configured base currency. *)
Class Platform : Type := {
  sha256_hexdigest : string -> string;
  str_timestamp : datetime -> string;
  format_fixed : nat -> float -> string;
  strftime : string -> datetime -> string;
  BASE_CURRENCY : string
}.

(** [str(n)] for an [int]. *)
Definition str_int (n : Z) : string := NilZero.string_of_int (Z.to_int n).

(** [s * n] *)
Fixpoint repeat_string (s : string) (n : nat) : string :=
  match n with
  | O => EmptyString
  | S n' => s ++ repeat_string s n'
  end.

Definition InsufficientFundsError (available required : float) (code : string)
  : exn :=
  OtherException "InsufficientFundsError" code.

Definition is_CurrencyNotFoundError (e : exn) : bool :=
  match e with
  | OtherException cls _ => String.eqb cls "CurrencyNotFoundError"
  | _ => false
  end.

Module UserInfo.

(** A user entry of the users document: the dict of [get_user_info]. *)
Record t : Type := mk {
  user_id : Z;
  username : string;
  hashed_password : string;
  salt : string;
  registration_date : datetime
}.

End UserInfo.

Module PortfolioEntry.

(** A portfolio entry of the portfolios document; [wallets] maps a code to
    its [balance]. *)
Record t : Type := mk {
  user_id : Z;
  wallets : list (string * float)
}.

End PortfolioEntry.

(** [next_id(records)] *)
Definition next_id (records : list UserInfo.t) : Z :=
  match records with
  | [] => 1
  | u :: rest => fold_left (fun m v => Z.max m (UserInfo.user_id v)) rest (UserInfo.user_id u) + 1
  end.

Module WalletBalance.

Record t : Type := mk {
  currency : string;
  amount : float
}.

(** [WalletBalance(currency, amount)], with its [__post_init__]. *)
Definition new (currency : string) (amount : float) : result t :=
  if PrimFloat.ltb amount 0%float then
    Raise (ValueError "💰 Баланс не может быть отрицательным")
  else Ok {| currency := upper currency; amount := amount |}.

(** [WalletBalance.add(amount)] *)
Definition add (value : float) (self : t) : result t :=
  if PrimFloat.leb value 0%float then
    Raise (ValueError "💰 Сумма пополнения должна быть положительной")
  else Ok {| currency := currency self;
             amount := PrimFloat.add (amount self) value |}.

(** [WalletBalance.subtract(amount)] *)
Definition subtract (value : float) (self : t) : result t :=
  if PrimFloat.leb value 0%float then
    Raise (ValueError "💰 Сумма снятия должна быть положительной")
  else if PrimFloat.ltb (amount self) value then
    Raise (InsufficientFundsError (amount self) value (currency self))
  else Ok {| currency := currency self;
             amount := PrimFloat.sub (amount self) value |}.

End WalletBalance.

Module Wallet.

Record t : Type := mk {
  currency_code : string;
  _balance : WalletBalance.t
}.

(** [Wallet(currency_code, balance)]; the arguments are a string and a
    float. *)
Definition new (currency_code : string) (balance : float) : result t :=
  if is_empty currency_code then
    Raise (ValueError "💱 Код валюты должен быть непустой строкой")
  else if PrimFloat.ltb balance 0%float then
    Raise (ValueError "💰 Баланс должен быть числом не меньше 0")
  else
    match WalletBalance.new currency_code balance with
    | Raise e => Raise e
    | Ok b => Ok {| currency_code := upper currency_code; _balance := b |}
    end.

(** [Wallet.balance] *)
Definition balance (self : t) : float := WalletBalance.amount (_balance self).

(** [Wallet.deposit(amount)] *)
Definition deposit (value : float) (self : t) : result t :=
  if PrimFloat.leb value 0%float then
    Raise (ValueError "💰 Сумма пополнения должна быть положительной")
  else
    match WalletBalance.add value (_balance self) with
    | Raise e => Raise e
    | Ok b => Ok {| currency_code := currency_code self; _balance := b |}
    end.

(** [Wallet.withdraw(amount)] *)
Definition withdraw (value : float) (self : t) : result t :=
  if PrimFloat.leb value 0%float then
    Raise (ValueError "💰 Сумма снятия должна быть положительной")
  else
    match WalletBalance.subtract value (_balance self) with
    | Raise e => Raise e
    | Ok b => Ok {| currency_code := currency_code self; _balance := b |}
    end.

End Wallet.

Module User.

Record t : Type := mk {
  _user_id : Z;
  _username : string;
  _hashed_password : string;
  _salt : string;
  _registration_date : datetime
}.

End User.

Module Portfolio.

Record t : Type := mk {
  _user_id : Z;
  _wallets : list (string * Wallet.t)
}.

End Portfolio.

(** The state the use cases run in: the users and portfolios files
    (absent before their first load), the world of the rate subsystem with
    its clock, and the two globals of [usecase]. *)
Record Session : Type := mkSession {
  users_file : option (file (list UserInfo.t));
  portfolios_file : option (file (list PortfolioEntry.t));
  world : World;
  _current_user : option User.t;
  _current_portfolio : option Portfolio.t
}.

(** [load_json(SettingsLoader().get("USERS_FILE"))]: a missing file is
    created holding the empty list, which is returned; the error of
    [json.load] on a malformed file is not caught. *)
Definition load_users : M Session (list UserInfo.t) :=
  fun s =>
    match users_file s with
    | Some (Document users) => (Ok users, s)
    | Some (Malformed msg) => (Raise (JSONDecodeError msg), s)
    | None =>
        (Ok [], {| users_file := Some (Document []);
                   portfolios_file := portfolios_file s;
                   world := world s; _current_user := _current_user s;
                   _current_portfolio := _current_portfolio s |})
    end.

(** [save_json(SettingsLoader().get("USERS_FILE"), users)] *)
Definition save_users (users : list UserInfo.t) : M Session unit :=
  fun s =>
    (Ok tt, {| users_file := Some (Document users);
               portfolios_file := portfolios_file s;
               world := world s; _current_user := _current_user s;
               _current_portfolio := _current_portfolio s |}).

(** [load_json(SettingsLoader().get("PORTFOLIOS_FILE"))] *)
Definition load_portfolios : M Session (list PortfolioEntry.t) :=
  fun s =>
    match portfolios_file s with
    | Some (Document portfolios) => (Ok portfolios, s)
    | Some (Malformed msg) => (Raise (JSONDecodeError msg), s)
    | None =>
        (Ok [], {| users_file := users_file s;
                   portfolios_file := Some (Document []);
                   world := world s; _current_user := _current_user s;
                   _current_portfolio := _current_portfolio s |})
    end.

(** [save_json(SettingsLoader().get("PORTFOLIOS_FILE"), portfolios)] *)
Definition save_portfolios (portfolios : list PortfolioEntry.t) : M Session unit :=
  fun s =>
    (Ok tt, {| users_file := users_file s;
               portfolios_file := Some (Document portfolios);
               world := world s; _current_user := _current_user s;
               _current_portfolio := _current_portfolio s |}).

(** [datetime.now()] in a use case. *)
Definition session_now : M Session datetime :=
  fun s => (Ok (clock (env (world s))), s).

(** Runs a computation of the rate subsystem inside the session. *)
Definition lift_world {A : Type} (m : M World A) : M Session A :=
  fun s =>
    let '(r, w') := m (world s) in
    (r, {| users_file := users_file s; portfolios_file := portfolios_file s;
           world := w'; _current_user := _current_user s;
           _current_portfolio := _current_portfolio s |}).

(** [_current_user = user] *)
Definition set_current_user (user : User.t) : M Session unit :=
  fun s =>
    (Ok tt, {| users_file := users_file s; portfolios_file := portfolios_file s;
               world := world s; _current_user := Some user;
               _current_portfolio := _current_portfolio s |}).

(** [_current_portfolio = portfolio]; also the global portfolio after one
    of its wallets has been changed in place. *)
Definition set_current_portfolio (portfolio : Portfolio.t) : M Session unit :=
  fun s =>
    (Ok tt, {| users_file := users_file s; portfolios_file := portfolios_file s;
               world := world s; _current_user := _current_user s;
               _current_portfolio := Some portfolio |}).

Section Models.

Context {PF : Platform}.

(** [SecurityManager.generate_salt()] *)
Definition generate_salt : M Session string :=
  do now <- session_now;
  ret (substring 0 8 (sha256_hexdigest (str_timestamp now))).

(** [SecurityManager.hash_password(password, salt)] *)
Definition hash_password (password salt : string) : string :=
  sha256_hexdigest (password ++ salt).

(** [SecurityManager.validate_password_strength(password)] *)
Definition validate_password_strength (password : string) : result unit :=
  if (String.length password <? 4)%nat then
    Raise (ValueError "🔐 Пароль должен содержать минимум 4 символа")
  else Ok tt.

(** [User(user_id, username, password, salt, registration_date)] *)
Definition User_new (user_id : Z) (username password : string)
    (salt : option string) (registration_date : option datetime)
  : M Session User.t :=
  run lift_result (validate_password_strength password);
  do _salt <-
    (match salt with
     | Some s => if is_empty s then generate_salt else ret s
     | None => generate_salt
     end);
  do _registration_date <-
    (match registration_date with
     | Some d => ret d
     | None => session_now
     end);
  if is_empty (strip username) then
    raise (ValueError "👤 Имя пользователя не может быть пустым")
  else
    ret {| User._user_id := user_id;
           User._username := strip username;
           User._hashed_password := hash_password password _salt;
           User._salt := _salt;
           User._registration_date := _registration_date |}.

(** [User.verify_password(password)] *)
Definition verify_password (password : string) (self : User.t) : bool :=
  String.eqb (User._hashed_password self)
    (hash_password password (User._salt self)).

(** [User.change_password(new_password)] *)
Definition change_password (new_password : string) (self : User.t)
  : M Session User.t :=
  if (String.length new_password <? 4)%nat then
    raise (ValueError "Пароль должен быть не короче 4 символов")
  else
    do new_salt <- generate_salt;
    ret {| User._user_id := User._user_id self;
           User._username := User._username self;
           User._hashed_password := hash_password new_password new_salt;
           User._salt := new_salt;
           User._registration_date := User._registration_date self |}.

(** [User.get_user_info()] *)
Definition get_user_info (self : User.t) : UserInfo.t :=
  {| UserInfo.user_id := User._user_id self;
     UserInfo.username := User._username self;
     UserInfo.hashed_password := User._hashed_password self;
     UserInfo.salt := User._salt self;
     UserInfo.registration_date := User._registration_date self |}.

(** [Portfolio(user_id, wallets)] *)
Definition Portfolio_new (user_id : Z) (wallets : list (string * Wallet.t))
  : result Portfolio.t :=
  if user_id <=? 0 then
    Raise (ValueError "🆔 user_id должен быть положительным числом")
  else Ok {| Portfolio._user_id := user_id; Portfolio._wallets := wallets |}.

(** [Portfolio.add_currency(currency_code)]: the portfolio with the new
    wallet, and the wallet. *)
Definition add_currency (currency_code : string) (self : Portfolio.t)
  : result (Portfolio.t * Wallet.t) :=
  let code := upper currency_code in
  match dict_get code (Portfolio._wallets self) with
  | Some _ =>
      Raise (ValueError ("💼 Кошелёк для валюты " ++ code ++ " уже существует"))
  | None =>
      match Wallet.new code 0%float with
      | Raise e => Raise e
      | Ok wallet =>
          Ok ({| Portfolio._user_id := Portfolio._user_id self;
                 Portfolio._wallets :=
                   dict_set code wallet (Portfolio._wallets self) |},
              wallet)
      end
  end.

(** [Portfolio.get_wallet(currency_code)] *)
Definition get_wallet (currency_code : string) (self : Portfolio.t)
  : result Wallet.t :=
  let code := upper currency_code in
  match dict_get code (Portfolio._wallets self) with
  | None => Raise (CurrencyNotFoundError code)
  | Some wallet => Ok wallet
  end.

(** The dict comprehension of [load_portfolio]: a wallet per item, in
    order; the first wallet that cannot be built raises. *)
Fixpoint build_wallets (items : list (string * float))
    (built : list (string * Wallet.t)) : result (list (string * Wallet.t)) :=
  match items with
  | [] => Ok built
  | (code, balance) :: rest =>
      match Wallet.new code balance with
      | Raise e => Raise e
      | Ok wallet => build_wallets rest (dict_set code wallet built)
      end
  end.

(** [Portfolio.load_portfolio(user_id)] *)
Definition load_portfolio (user_id : Z) : M Session Portfolio.t :=
  do portfolios <- load_portfolios;
  match List.find (fun d => PortfolioEntry.user_id d =? user_id) portfolios with
  | None => lift_result (Portfolio_new user_id [])
  | Some data =>
      do wallets <- lift_result (build_wallets (PortfolioEntry.wallets data) []);
      lift_result (Portfolio_new user_id wallets)
  end.

(** [{code: {"balance": w.balance} for code, w in self._wallets.items()}] *)
Definition wallet_balances (self : Portfolio.t) : list (string * float) :=
  map (fun item => (fst item, Wallet.balance (snd item))) (Portfolio._wallets self).

(** The [for] loop of [save_portfolio]: the wallets of the first entry of
    the user are replaced; [None] when the loop ends without a [break]. *)
Fixpoint replace_wallets (user_id : Z) (balances : list (string * float))
    (portfolios : list PortfolioEntry.t) : option (list PortfolioEntry.t) :=
  match portfolios with
  | [] => None
  | p :: rest =>
      if PortfolioEntry.user_id p =? user_id then
        Some ({| PortfolioEntry.user_id := PortfolioEntry.user_id p;
                 PortfolioEntry.wallets := balances |} :: rest)
      else
        match replace_wallets user_id balances rest with
        | Some rest' => Some (p :: rest')
        | None => None
        end
  end.

(** [Portfolio.save_portfolio()] *)
Definition save_portfolio (self : Portfolio.t) : M Session unit :=
  do portfolios <- load_portfolios;
  match replace_wallets (Portfolio._user_id self) (wallet_balances self)
          portfolios with
  | Some portfolios' => save_portfolios portfolios'
  | None =>
      save_portfolios
        (portfolios ++ [{| PortfolioEntry.user_id := Portfolio._user_id self;
                           PortfolioEntry.wallets := wallet_balances self |}])
  end.

(** [create_initial_portfolio(user_id)] *)
Definition create_initial_portfolio (user_id : Z) : result Portfolio.t :=
  match Portfolio_new user_id [] with
  | Raise e => Raise e
  | Ok portfolio =>
      match add_currency BASE_CURRENCY portfolio with
      | Raise e => Raise e
      | Ok (portfolio', _) => Ok portfolio'
      end
  end.

(** [register(username, password)], without its logging decorator. *)
Definition register (username password : string) : M Session string :=
  do users_data <- load_users;
  if existsb (fun u => String.eqb (UserInfo.username u) username) users_data then
    raise (ValueError ("Пользователь '" ++ username ++ "' уже существует"))
  else if (String.length password <? 4)%nat then
    raise (ValueError "Пароль должен содержать минимум 4 символа")
  else
    let user_id := next_id users_data in
    do user <- User_new user_id username password None None;
    run save_users (users_data ++ [get_user_info user]);
    do portfolios <- load_portfolios;
    run save_portfolios
      (portfolios ++ [{| PortfolioEntry.user_id := user_id;
                         PortfolioEntry.wallets := [(BASE_CURRENCY, 0%float)] |}]);
    ret ("Пользователь '" ++ username ++ "' успешно зарегистрирован (ID: "
         ++ str_int user_id ++ "). "
         ++ "Для входа используйте: login --username " ++ username
         ++ " --password ****").

(** [login(username, password)], without its logging decorator. The user
    is made current before the portfolio is loaded. *)
Definition login (username password : string) : M Session string :=
  do users_data <- load_users;
  match List.find (fun u => String.eqb (UserInfo.username u) username) users_data with
  | None => raise (ValueError ("Пользователь '" ++ username ++ "' не найден"))
  | Some user_entry =>
      do user <- User_new (UserInfo.user_id user_entry)
                   (UserInfo.username user_entry) password
                   (Some (UserInfo.salt user_entry))
                   (Some (UserInfo.registration_date user_entry));
      run (if negb (verify_password password user)
                && negb (String.eqb (User._hashed_password user)
                           (UserInfo.hashed_password user_entry))
           then raise (ValueError "Неверный пароль")
           else ret tt);
      run set_current_user user;
      do portfolio <- load_portfolio (User._user_id user);
      run set_current_portfolio portfolio;
      ret ("Добро пожаловать, " ++ username ++ "! Вы успешно вошли в систему.")
  end.

End Models.

Section UseCases.

Context {PF : Platform} {PS : ParserService}.

Definition newline : string := String "010" EmptyString.

(** [f"{'─' * 40}"] *)
Definition rule : string := repeat_string "─" 40.

Definition get_session : M Session Session := fun s => (Ok s, s).

(** [wallets[code] = wallet] on the wallets of a portfolio. *)
Definition with_wallet (code : string) (wallet : Wallet.t) (self : Portfolio.t)
  : Portfolio.t :=
  {| Portfolio._user_id := Portfolio._user_id self;
     Portfolio._wallets := dict_set code wallet (Portfolio._wallets self) |}.

(** The text [buy] returns. *)
Definition buy_message (currency base_currency : string)
    (amount rate cost_in_base old_balance new_balance
     old_base_balance new_base_balance : float) : string :=
  "🎯 ОПЕРАЦИЯ: ПОКУПКА" ++ newline
  ++ rule ++ newline
  ++ "• Куплено: " ++ format_fixed 4 amount ++ " " ++ currency ++ newline
  ++ "• Курс: 1 " ++ currency ++ " = " ++ format_fixed 4 rate ++ " "
  ++ base_currency ++ newline
  ++ "• Стоимость: " ++ format_fixed 2 cost_in_base ++ " " ++ base_currency
  ++ newline
  ++ rule ++ newline
  ++ "📈 ИЗМЕНЕНИЯ В ПОРТФЕЛЕ:" ++ newline
  ++ "  " ++ currency ++ ": " ++ format_fixed 4 old_balance ++ " → "
  ++ format_fixed 4 new_balance ++ " (+" ++ format_fixed 4 amount ++ ")"
  ++ newline
  ++ "  " ++ base_currency ++ ": " ++ format_fixed 2 old_base_balance ++ " → "
  ++ format_fixed 2 new_base_balance ++ " (-" ++ format_fixed 2 cost_in_base
  ++ ")" ++ newline
  ++ rule ++ newline
  ++ "✅ Покупка успешно выполнена!".

(** [buy(currency, amount)], without its logging decorator. The wallets
    are objects shared with the global portfolio: each change of a wallet
    is a change of the global at that point. *)
Definition buy (currency : string) (amount : float) : M Session string :=
  do session <- get_session;
  match _current_portfolio session, _current_user session with
  | Some portfolio, Some _ =>
      if PrimFloat.leb amount 0%float then
        raise (ValueError "Сумма покупки должна быть положительной")
      else
        let base_currency := BASE_CURRENCY in
        let currency := upper currency in
        if String.eqb currency base_currency then
          raise (ValueError ("Нельзя покупать базовую валюту " ++ base_currency))
        else
          run lift_result (fst (get_currency currency _registry));
          do found <-
            try_except (lift_world (get_exchange_rate currency base_currency))
              (fun e => is_CurrencyNotFoundError e || is_ApiRequestError e)
              (fun e =>
                 raise (ApiRequestError
                          ("Не удалось получить курс для " ++ currency ++ "/"
                           ++ base_currency ++ ": " ++ str_exn e)));
          let rate := fst found in
          let cost_in_base := PrimFloat.mul amount rate in
          do base_wallet <-
            try_except (lift_result (get_wallet base_currency portfolio))
              is_CurrencyNotFoundError
              (fun _ =>
                 raise (InsufficientFundsError 0%float cost_in_base base_currency));
          if PrimFloat.ltb (Wallet.balance base_wallet) cost_in_base then
            raise (InsufficientFundsError (Wallet.balance base_wallet)
                     cost_in_base base_currency)
          else
            let old_base_balance := Wallet.balance base_wallet in
            do base_wallet' <- lift_result (Wallet.withdraw cost_in_base base_wallet);
            let portfolio := with_wallet (upper base_currency) base_wallet' portfolio in
            run set_current_portfolio portfolio;
            do added <-
              try_except
                (do wallet <- lift_result (get_wallet currency portfolio);
                 ret (portfolio, wallet))
                is_CurrencyNotFoundError
                (fun _ => lift_result (add_currency currency portfolio));
            let portfolio := fst added in
            let wallet := snd added in
            run set_current_portfolio portfolio;
            let old_balance := Wallet.balance wallet in
            do wallet' <- lift_result (Wallet.deposit amount wallet);
            let portfolio := with_wallet (upper currency) wallet' portfolio in
            run set_current_portfolio portfolio;
            run save_portfolio portfolio;
            let new_base_balance :=
              match get_wallet base_currency portfolio with
              | Ok w => Wallet.balance w
              | Raise _ => Wallet.balance base_wallet'
              end in
            ret (buy_message currency base_currency amount rate cost_in_base
                   old_balance (Wallet.balance wallet')
                   old_base_balance new_base_balance)
  | _, _ => raise (ValueError "Сначала выполните вход в систему")
  end.

(** [get_rate(frm, to)] *)
Definition get_rate (frm to : string) : M Session string :=
  let frm := upper frm in
  let to := upper to in
  run lift_result (fst (get_currency frm _registry));
  run lift_result (fst (get_currency to _registry));
  do quoted <-
    try_except
      (do found <- lift_world (get_exchange_rate frm to);
       do inv <- lift_result (true_div_one (fst found));
       ret (found, inv))
      (fun _ => true)
      (fun e => raise (ApiRequestError (str_exn e)));
  let rate := fst (fst quoted) in
  let updated := snd (fst quoted) in
  let inv := snd quoted in
  ret ("💱 КУРС ВАЛЮТ" ++ newline
       ++ rule ++ newline
       ++ "• " ++ frm ++ " → " ++ to ++ ": " ++ format_fixed 6 rate ++ newline
       ++ "• " ++ to ++ " → " ++ frm ++ ": " ++ format_fixed 6 inv ++ newline
       ++ rule ++ newline
       ++ "🕐 Обновлено: " ++ strftime "%Y-%m-%d %H:%M:%S" updated).

End UseCases.

(** * Sample accounts *)

(** A platform for the examples: the digest is a tagged copy of its
    input, numbers print as integers of their microseconds. *)
Definition SamplePlatform : Platform := {|
  sha256_hexdigest := fun s => "digest:" ++ s;
  str_timestamp := fun t => str_int t;
  format_fixed := fun _ _ => "0.00";
  strftime := fun _ t => str_int t;
  BASE_CURRENCY := "USD"
|}.

Definition empty_session : Session :=
  {| users_file := None; portfolios_file := None; world := cached_world 10;
     _current_user := None; _current_portfolio := None |}.

(** The session after [alice] has registered. *)
Definition alice_session : Session :=
  snd (register (PF := SamplePlatform) "alice" "secret" empty_session).

Definition usd_wallet (balance : float) : Wallet.t :=
  {| Wallet.currency_code := "USD";
     Wallet._balance := {| WalletBalance.currency := "USD";
                           WalletBalance.amount := balance |} |}.

(** A portfolio of user 1 holding 100 USD. *)
Definition alice_portfolio : Portfolio.t :=
  {| Portfolio._user_id := 1;
     Portfolio._wallets := [("USD", usd_wallet 100%float)] |}.

(** The document of a file changed by [f], a malformed file left as it
    is. *)
Definition file_map {A B : Type} (f : A -> B) (x : file A) : file B :=
  match x with
  | Document data => Document (f data)
  | Malformed msg => Malformed msg
  end.

(** The hashes of every user entry replaced by [h]. *)
Definition with_hash (h : string) (u : UserInfo.t) : UserInfo.t :=
  {| UserInfo.user_id := UserInfo.user_id u;
     UserInfo.username := UserInfo.username u;
     UserInfo.hashed_password := h;
     UserInfo.salt := UserInfo.salt u;
     UserInfo.registration_date := UserInfo.registration_date u |}.

Definition with_hashes (h : string) (s : Session) : Session :=
  {| users_file := option_map (file_map (map (with_hash h))) (users_file s);
     portfolios_file := portfolios_file s; world := world s;
     _current_user := _current_user s;
     _current_portfolio := _current_portfolio s |}.

(** The entries of a file: none when the file is missing or malformed. *)
Definition entries {A : Type} (f : option (file (list A))) : list A :=
  match f with
  | Some (Document data) => data
  | Some (Malformed _) | None => []
  end.

(** A computation that neither reads nor writes the stored hashes. *)
Definition hash_blind {A : Type} (m : M Session A) : Prop :=
  forall h s, m (with_hashes h s) = (fst (m s), with_hashes h (snd (m s))).

(** A file [load_json] can load: a missing one, or one holding a
    document. *)
Definition readable {A : Type} (f : option (file A)) : bool :=
  match f with
  | Some (Malformed _) => false
  | Some (Document _) | None => true
  end.

(** The users and portfolio entries a session holds on disk. *)
Definition stored_users (s : Session) : list UserInfo.t :=
  entries (users_file s).

Definition stored_portfolios (s : Session) : list PortfolioEntry.t :=
  entries (portfolios_file s).

(** A wallet as [Wallet(code, balance)] builds it under its key. *)
Definition well_formed_wallets (items : list (string * Wallet.t)) : Prop :=
  NoDup (map fst items)
  /\ Forall (fun item => Wallet.new (fst item) (Wallet.balance (snd item))
                         = Ok (snd item)) items.

Section AccountStates.

Context {PF : Platform}.

(** The salt [generate_salt] draws from the clock of a session. *)
Definition salt_at (s : Session) : string :=
  substring 0 8 (sha256_hexdigest (str_timestamp (clock (env (world s))))).

(** The user [register] creates in a session. *)
Definition registered_user (username password : string) (s : Session)
  : UserInfo.t :=
  {| UserInfo.user_id := next_id (stored_users s);
     UserInfo.username := strip username;
     UserInfo.hashed_password := hash_password password (salt_at s);
     UserInfo.salt := salt_at s;
     UserInfo.registration_date := clock (env (world s)) |}.

Definition initial_entry (s : Session) : PortfolioEntry.t :=
  {| PortfolioEntry.user_id := next_id (stored_users s);
     PortfolioEntry.wallets := [(BASE_CURRENCY, 0%float)] |}.

Definition name_taken (username : string) (s : Session) : bool :=
  existsb (fun u => String.eqb (UserInfo.username u) username) (stored_users s).

End AccountStates.

(** The portfolios document after [save_portfolio]. *)
Definition saved_portfolios (self : Portfolio.t) (portfolios : list PortfolioEntry.t)
  : list PortfolioEntry.t :=
  match replace_wallets (Portfolio._user_id self) (wallet_balances self)
          portfolios with
  | Some portfolios' => portfolios'
  | None =>
      (portfolios ++ [{| PortfolioEntry.user_id := Portfolio._user_id self;
                         PortfolioEntry.wallets := wallet_balances self |}])%list
  end.

(** The accounts of two sessions are the same: the portfolio and the user
    in memory, and the two documents. *)
Definition same_accounts (s s' : Session) : Prop :=
  _current_portfolio s' = _current_portfolio s
  /\ portfolios_file s' = portfolios_file s
  /\ users_file s' = users_file s
  /\ _current_user s' = _current_user s.


(** [alice] with 100 USD in the portfolio in memory. *)
Definition funded_session : Session :=
  {| users_file := users_file alice_session;
     portfolios_file := portfolios_file alice_session;
     world := cached_world 10;
     _current_user :=
       Some {| User._user_id := 1; User._username := "alice";
               User._hashed_password := ""; User._salt := "";
               User._registration_date := T0 |};
     _current_portfolio := Some alice_portfolio |}.

(** The same session with a portfolios file that is no JSON document. *)
Definition damaged_session : Session :=
  {| users_file := users_file funded_session;
     portfolios_file := Some (Malformed "Expecting value: line 1 column 1 (char 0)");
     world := world funded_session;
     _current_user := _current_user funded_session;
     _current_portfolio := _current_portfolio funded_session |}.

(** 1/1024 of a coin: 48.828125 USD at the cached rate. *)
Definition small_amount : float := 0.0009765625%float.

(** The user and the portfolio [login] puts in memory after a first
    registration. *)
Section LoggedIn.

Context {PF : Platform}.

Definition logged_in_user (username password : string) (s : Session) : User.t :=
  {| User._user_id := next_id (stored_users s);
     User._username := strip username;
     User._hashed_password := hash_password password (salt_at s);
     User._salt := salt_at s;
     User._registration_date := clock (env (world s)) |}.

Definition initial_portfolio (s : Session) : Portfolio.t :=
  {| Portfolio._user_id := next_id (stored_users s);
     Portfolio._wallets :=
       [(BASE_CURRENCY,
         {| Wallet.currency_code := upper BASE_CURRENCY;
            Wallet._balance := {| WalletBalance.currency := upper BASE_CURRENCY;
                                  WalletBalance.amount := 0%float |} |})] |}.

End LoggedIn.

(** * Properties of [find_rate] *)

Lemma upper_ascii_idem (c : ascii) : upper_ascii (upper_ascii c) = upper_ascii c.
Proof. destruct c as [[] [] [] [] [] [] [] []]; reflexivity. Qed.

Lemma upper_idem (s : string) : upper (upper s) = upper s.
Proof.
  induction s as [|c s IH]; simpl; [reflexivity|].
  now rewrite upper_ascii_idem, IH.
Qed.

Lemma find_rate_absent (rates : snapshot) (a b : string) :
  rates !! pair_key a b = None ->
  rates !! pair_key b a = None ->
  find_rate rates a b = Raise (RateNotFoundError (a ++ "→" ++ b)).
Proof. intros Hd Hr. unfold find_rate. now rewrite Hd, Hr. Qed.

(** C3: when the pair (A,B) is stored with rate r and timestamp updated_at,
    and (B,A) is not stored, looking up (B,A) returns the inverse rate 1/r
    together with the stored timestamp of the (A,B) record. The stored rate
    is positive in the data model, so the divisor is not zero. *)
Theorem find_rate_reverse_inverts (rates : snapshot) (A B : string) (rec : RateRecord) :
  rates !! pair_key A B = Some (Quote rec) ->
  rates !! pair_key B A = None ->
  PrimFloat.eqb (rate rec) 0%float = false ->
  find_rate rates B A = Ok (PrimFloat.div 1%float (rate rec), updated_at rec).
Proof.
  intros Hstored Hnone Hnz. unfold find_rate.
  rewrite Hnone, Hstored. simpl. unfold true_div_one. now rewrite Hnz.
Qed.

(** C8: when both the key (A,B) and the key (B,A) are stored, looking up
    (A,B) returns the rate and timestamp stored under (A,B) itself; the
    reverse entry is not consulted. *)
Theorem find_rate_direct_first (rates : snapshot) (A B : string) (direct reverse : RateRecord) :
  rates !! pair_key A B = Some (Quote direct) ->
  rates !! pair_key B A = Some (Quote reverse) ->
  find_rate rates A B = Ok (rate direct, updated_at direct).
Proof.
  intros Hd _. unfold find_rate. now rewrite Hd.
Qed.

Lemma find_rate_reverse_inverts_witness :
  find_rate btc_cache "USD" "BTC"
  = Ok (PrimFloat.div 1%float (rate btc_usd), updated_at btc_usd).
Proof.
  apply (find_rate_reverse_inverts btc_cache "BTC" "USD" btc_usd);
    vm_compute; reflexivity.
Defined.

Lemma find_rate_direct_first_witness :
  find_rate both_ways_cache "BTC" "USD" = Ok (rate btc_usd, updated_at btc_usd).
Proof.
  apply (find_rate_direct_first both_ways_cache "BTC" "USD" btc_usd usd_btc);
    vm_compute; reflexivity.
Defined.

(** The scenario of the spec: the stored direction is answered as stored,
    the opposite direction as its inverse, both with the stored time. *)
Example find_rate_scenario :
  find_rate btc_cache "BTC" "USD" = Ok (50000%float, T0)
  /\ find_rate btc_cache "USD" "BTC" = Ok (PrimFloat.div 1 50000, T0).
Proof. split; vm_compute; reflexivity. Qed.

(** A zero rate in the cache makes the reverse lookup raise. *)
Example find_rate_zero_rate :
  find_rate {["BTC_USD" := Quote {| rate := 0%float; updated_at := T0; source := "" |}]}
    "USD" "BTC" = Raise ZeroDivisionError.
Proof. vm_compute; reflexivity. Qed.

(** * The monad on concrete runs *)

Lemma bind_ok {S A B : Type} (m : M S A) (k : A -> M S B) (s s' : S) (a : A) :
  m s = (Ok a, s') -> bind m k s = k a s'.
Proof. intros H. unfold bind. now rewrite H. Qed.

Lemma bind_raise {S A B : Type} (m : M S A) (k : A -> M S B) (s s' : S) (e : exn) :
  m s = (Raise e, s') -> bind m k s = (Raise e, s').
Proof. intros H. unfold bind. now rewrite H. Qed.


(** * The calls on the collaborators *)

Lemma load_rates_some (w : World) (rates : snapshot) :
  rates_file (env w) = Some rates ->
  load_rates w = (Ok rates, {| env := env w; trace := EvLoadRates :: trace w |}).
Proof.
  intros H. unfold load_rates, bind, log, lift_env. simpl. now rewrite H.
Qed.

Lemma load_rates_value (w : World) :
  exists e',
    load_rates w
    = (Ok (default ∅ (rates_file (env w))),
       {| env := e'; trace := EvLoadRates :: trace w |})
    /\ rates_file e' = Some (default ∅ (rates_file (env w)))
    /\ clock e' = clock (env w)
    /\ settings e' = settings (env w).
Proof.
  unfold load_rates, bind, log, lift_env. simpl.
  destruct (rates_file (env w)) as [rates|] eqn:H; eexists; simpl;
    (split; [reflexivity|]); simpl; auto.
Qed.

Section ResolverFacts.

Context {PS : ParserService}.

(** A call to [update_rates] is one more entry in the trace, whatever
    the parser service does. *)
Lemma update_rates_trace (source : option string) (w : World) :
  trace (snd (update_rates source w)) = EvUpdateRates source :: trace w.
Proof.
  unfold update_rates, bind, log, try_except, lift_env, raise, ret. simpl.
  destruct (refresh_cycle source (env w)) as [[cnt|e] e'].
  - destruct (cnt =? 0); reflexivity.
  - destruct (is_ApiRequestError e); reflexivity.
Qed.

Lemma update_rates_calls (source : option string) (w : World) :
  update_calls (snd (update_rates source w)) = S (update_calls w).
Proof. unfold update_calls. now rewrite update_rates_trace. Qed.

(** C6: for every currency code X, the rate from X to X is (1.0, now),
    answered from the clock alone: the world the call leaves is the world
    it started in, so the cache was neither read nor written and no
    refresh was requested. *)
Theorem get_exchange_rate_same_currency (X : string) (w : World) :
  get_exchange_rate X X w = (Ok (1%float, clock (env w)), w).
Proof.
  unfold get_exchange_rate. now rewrite String.eqb_refl.
Qed.

(** C9: the currency codes are compared after upper-casing: a call with
    codes f and t is the call with f.upper() and t.upper(); and two codes
    that differ only in case are one currency, answered with (1.0, now). *)
Theorem get_exchange_rate_case_insensitive (f t : string) (w : World) :
  get_exchange_rate f t w = get_exchange_rate (upper f) (upper t) w
  /\ (upper f = upper t ->
      get_exchange_rate f t w = (Ok (1%float, clock (env w)), w)).
Proof.
  split.
  - unfold get_exchange_rate. now rewrite !upper_idem.
  - intros Hsame. unfold get_exchange_rate.
    rewrite Hsame, String.eqb_refl. reflexivity.
Qed.

(** What [update_rates] makes of the outcome of its [try] block. *)
Lemma update_rates_outcome (source : option string) (w : World)
    (r : result Z) (e' : Env) :
  refresh_cycle source (env w) = (r, e') ->
  update_rates source w
  = (match r with
     | Raise (ApiRequestError msg) => Raise (ApiRequestError msg)
     | Raise other => Raise (ApiRequestError (update_failed_message other))
     | Ok cnt =>
         if cnt =? 0 then Raise (ApiRequestError no_rates_message) else Ok tt
     end,
     {| env := e'; trace := EvUpdateRates source :: trace w |}).
Proof.
  intros Hcycle.
  unfold update_rates, bind, log, try_except, lift_env, raise, ret. simpl.
  rewrite Hcycle. destruct r as [cnt|x].
  - destruct (cnt =? 0); reflexivity.
  - destruct x; reflexivity.
Qed.

(** C10: [update_rates] is decided by the outcome of its [try] block, the
    construction of the clients followed by the run of the updater. An
    [ApiRequestError] raised there is raised again as it is; any other
    exception raised there is raised as an [ApiRequestError] whose message
    carries its text; a count of zero is raised as the [ApiRequestError]
    that no rate was obtained; any other count makes the call return. In
    every case the environment is the one the block left. Hence whatever
    escapes [update_rates] is an [ApiRequestError]. *)
Theorem update_rates_raises_ApiRequestError (source : option string)
    (w : World) (r : result Z) (e' : Env) :
  refresh_cycle source (env w) = (r, e') ->
  update_rates source w
  = (match r with
     | Raise (ApiRequestError msg) => Raise (ApiRequestError msg)
     | Raise other => Raise (ApiRequestError (update_failed_message other))
     | Ok cnt =>
         if cnt =? 0 then Raise (ApiRequestError no_rates_message) else Ok tt
     end,
     {| env := e'; trace := EvUpdateRates source :: trace w |})
  /\ (forall e, fst (update_rates source w) = Raise e ->
                is_ApiRequestError e = true).
Proof.
  intros Hcycle. split; [now apply update_rates_outcome|].
  rewrite (update_rates_outcome source w r e' Hcycle). cbn [fst].
  destruct r as [cnt|x].
  - destruct (cnt =? 0); intros e H; [|discriminate H].
    injection H as <-. reflexivity.
  - destruct x; intros e H; injection H as <-; reflexivity.
Qed.

End ResolverFacts.

Lemma get_exchange_rate_case_insensitive_witness :
  get_exchange_rate (PS := SpecParserService) "usd" "USD" fresh_world
  = (Ok (1%float, clock (env fresh_world)), fresh_world).
Proof.
  apply (proj2 (get_exchange_rate_case_insensitive
                  (PS := SpecParserService) "usd" "USD" fresh_world)).
  reflexivity.
Defined.

(** A [KeyError] raised while the fiat client is built leaves
    [update_rates] wrapped; the [ApiRequestError] of the updater leaves
    it as it is; a run that updates nothing is reported. *)
Lemma update_rates_raises_ApiRequestError_witness :
  update_rates (PS := FailingParserService) None offline_world
  = (Raise (ApiRequestError
              ("Не удалось обновить курсы: " ++ "'EXCHANGERATE_API_KEY'")),
     {| env := env offline_world; trace := [EvUpdateRates None] |})
  /\ update_rates (PS := FailingParserService) (Some "coingecko") offline_world
     = (Raise (ApiRequestError "503 Service Unavailable"),
        {| env := env offline_world;
           trace := [EvUpdateRates (Some "coingecko")] |})
  /\ update_rates (PS := SpecParserService) None offline_world
     = (Raise (ApiRequestError no_rates_message),
        {| env := env offline_world; trace := [EvUpdateRates None] |}).
Proof.
  split; [|split].
  - refine (proj1 (update_rates_raises_ApiRequestError
                     (PS := FailingParserService) None offline_world
                     (Raise (OtherException "KeyError" "'EXCHANGERATE_API_KEY'"))
                     (env offline_world) _)).
    reflexivity.
  - refine (proj1 (update_rates_raises_ApiRequestError
                     (PS := FailingParserService) (Some "coingecko") offline_world
                     (Raise (ApiRequestError "503 Service Unavailable"))
                     (env offline_world) _)).
    reflexivity.
  - refine (proj1 (update_rates_raises_ApiRequestError
                     (PS := SpecParserService) None offline_world
                     (Ok 0) (env offline_world) _)).
    vm_compute. reflexivity.
Defined.

(** * A bound on the refresh cycles of one call *)

Lemma refreshes_mono {A : Type} (n k : nat) (m : M World A) :
  (n <= k)%nat -> refreshes_at_most n m -> refreshes_at_most k m.
Proof. intros Hle Hm w. specialize (Hm w). lia. Qed.

Lemma refreshes_ret {A : Type} (a : A) : refreshes_at_most 0 (ret a).
Proof. intros w. simpl. lia. Qed.

Lemma refreshes_lift_result {A : Type} (r : result A) :
  refreshes_at_most 0 (lift_result r).
Proof. intros w. simpl. lia. Qed.

Lemma refreshes_datetime_now : refreshes_at_most 0 datetime_now.
Proof. intros w. simpl. lia. Qed.

Lemma refreshes_settings_get (key : string) (fallback : Z) :
  refreshes_at_most 0 (settings_get key fallback).
Proof. intros w. simpl. lia. Qed.

Lemma refreshes_load_rates : refreshes_at_most 0 load_rates.
Proof.
  intros w. destruct (load_rates_value w) as (e' & -> & _).
  unfold update_calls. simpl. lia.
Qed.

Lemma refreshes_bind {A B : Type} (n k : nat) (m : M World A) (f : A -> M World B) :
  refreshes_at_most n m ->
  (forall a, refreshes_at_most k (f a)) ->
  refreshes_at_most (n + k) (bind m f).
Proof.
  intros Hm Hf w. unfold bind. specialize (Hm w).
  destruct (m w) as [[a|e] w']; simpl in *.
  - specialize (Hf a w'). lia.
  - lia.
Qed.

Lemma refreshes_try_except {A : Type} (n k : nat) (m : M World A)
    (handles : exn -> bool) (h : exn -> M World A) :
  refreshes_at_most n m ->
  (forall e, refreshes_at_most k (h e)) ->
  refreshes_at_most (n + k) (try_except m handles h).
Proof.
  intros Hm Hh w. unfold try_except. specialize (Hm w).
  destruct (m w) as [[a|e] w']; simpl in *; [lia|].
  destruct (handles e); simpl; [|lia].
  specialize (Hh e w'). lia.
Qed.

Section RefreshBound.

Context {PS : ParserService}.

Lemma refreshes_update_rates (source : option string) :
  refreshes_at_most 1 (update_rates source).
Proof. intros w. rewrite update_rates_calls. lia. Qed.

(** One forced refresh followed by a reload and a lookup. *)
Lemma refreshes_retry (a b : string) :
  refreshes_at_most 1
    (run update_rates None;
     do rates <- load_rates;
     lift_result (find_rate rates a b)).
Proof.
  apply (refreshes_bind 1 0); [apply refreshes_update_rates|intros _].
  apply (refreshes_bind 0 0); [apply refreshes_load_rates|intros rates].
  apply refreshes_lift_result.
Qed.

(** C1 (amended): during one call of [get_exchange_rate] at most three
    refresh cycles are requested, however the trigger conditions (empty
    cache, pair not found, TTL expired) fire. *)
Theorem get_exchange_rate_refreshes_at_most_thrice (f t : string) (w : World) :
  (update_calls (snd (get_exchange_rate f t w)) <= update_calls w + 3)%nat.
Proof.
  revert w. change (refreshes_at_most 3 (get_exchange_rate f t)).
  unfold get_exchange_rate.
  destruct (String.eqb (upper f) (upper t)).
  { apply (refreshes_mono 0); [lia|].
    apply (refreshes_bind 0 0); [apply refreshes_datetime_now|intros now].
    apply refreshes_ret. }
  apply (refreshes_bind 0 3); [apply refreshes_load_rates|intros rates].
  apply (refreshes_bind 1 2).
  { destruct (cache_is_empty rates).
    - apply (refreshes_bind 1 0); [apply refreshes_update_rates|intros _].
      apply refreshes_load_rates.
    - apply (refreshes_mono 0); [lia|apply refreshes_ret]. }
  intros rates'.
  apply (refreshes_bind 1 1).
  { apply (refreshes_try_except 0 1); [apply refreshes_lift_result|intros _].
    apply refreshes_retry. }
  intros found.
  apply (refreshes_bind 0 1); [apply refreshes_settings_get|intros ttl].
  apply (refreshes_bind 0 1); [apply refreshes_datetime_now|intros now].
  destruct (older_than now (snd found) ttl).
  - apply refreshes_retry.
  - apply (refreshes_mono 0); [lia|apply refreshes_ret].
Qed.

End RefreshBound.

(** C1 (as stated) fails: with no cache yet and providers that do not cover
    the pair, the cache is refreshed once because it is empty and once more
    because the pair is missing. *)
Lemma get_exchange_rate_refreshes_twice :
  "EUR" <> "GBP"
  /\ update_calls fresh_world = 0%nat
  /\ update_calls
       (snd (get_exchange_rate (PS := SpecParserService) "EUR" "GBP" fresh_world))
     = 2%nat
  /\ ~ at_most_one_refresh_per_call.
Proof.
  split; [discriminate|]. split; [reflexivity|]. split; [vm_compute; reflexivity|].
  intros Hclaim.
  specialize (Hclaim SpecParserService "EUR" "GBP" fresh_world).
  assert (Hne : "EUR" <> "GBP") by discriminate.
  specialize (Hclaim Hne).
  assert (Htwo : update_calls
            (snd (get_exchange_rate (PS := SpecParserService) "EUR" "GBP" fresh_world))
          = 2%nat) by (vm_compute; reflexivity).
  rewrite Htwo in Hclaim. simpl in Hclaim. lia.
Qed.

(** The bound of three is reached: the cache is empty, the first cycle does
    not bring the pair, the second brings it with a quote older than the
    TTL. *)
Example get_exchange_rate_refreshes_thrice :
  trace (snd (get_exchange_rate (PS := SpecParserService) "eur" "usd" flaky_world))
  = [EvLoadRates; EvUpdateRates None; EvLoadRates; EvUpdateRates None;
     EvLoadRates; EvUpdateRates None; EvLoadRates].
Proof. vm_compute; reflexivity. Qed.

(** * The resolver, trigger by trigger *)

Section ResolverTriggers.

Context {PS : ParserService}.

(** The forced refresh of a trigger: one cycle, a reload, one lookup. *)
Lemma retry_outcome (a b : string) (w : World) :
  let after := (run update_rates None;
                do rates <- load_rates;
                lift_result (find_rate rates a b)) w in
  update_calls (snd after) = S (update_calls w).
Proof.
  simpl. unfold bind at 1.
  pose proof (update_rates_calls None w) as Hcalls.
  destruct (update_rates None w) as [[[]|e] w2]; simpl in *; [|exact Hcalls].
  unfold bind. destruct (load_rates_value w2) as (e' & -> & _).
  unfold lift_result. simpl. unfold update_calls in *. simpl. exact Hcalls.
Qed.

(** With the pair in a populated cache, the call is the TTL test on the
    record found. *)
Lemma get_exchange_rate_found (f t : string) (w : World) (rates : snapshot)
    (found : float * datetime) :
  upper f <> upper t ->
  rates_file (env w) = Some rates ->
  cache_is_empty rates = false ->
  find_rate rates (upper f) (upper t) = Ok found ->
  get_exchange_rate f t w
  = let w1 := {| env := env w; trace := EvLoadRates :: trace w |} in
    if older_than (clock (env w)) (snd found)
         (default 3600 (settings (env w) !! "RATES_TTL_SECONDS"))
    then (run update_rates None;
          do rates <- load_rates;
          lift_result (find_rate rates (upper f) (upper t))) w1
    else (Ok found, w1).
Proof.
  intros Hne Hfile Hfull Hfound. unfold get_exchange_rate.
  apply String.eqb_neq in Hne. rewrite Hne.
  rewrite (bind_ok _ _ _ _ _ (load_rates_some w rates Hfile)).
  rewrite Hfull.
  unfold bind at 1. unfold ret at 1.
  unfold bind at 1. unfold try_except, lift_result at 1. rewrite Hfound.
  unfold bind at 1. unfold settings_get at 1.
  unfold bind at 1. unfold datetime_now. simpl.
  destruct (older_than _ _ _); reflexivity.
Qed.




(** C4: the TTL being 3600 seconds and the pair found in a populated cache,
    a record aged 3601 seconds makes the call request exactly one refresh
    cycle, after which it answers or fails with the reloaded lookup; a
    record aged 3599 seconds is answered as found, with no refresh
    requested and the environment untouched. *)
Theorem get_exchange_rate_ttl_boundary (f t : string) (w : World)
    (rates : snapshot) (found : float * datetime) :
  upper f <> upper t ->
  rates_file (env w) = Some rates ->
  cache_is_empty rates = false ->
  find_rate rates (upper f) (upper t) = Ok found ->
  default 3600 (settings (env w) !! "RATES_TTL_SECONDS") = 3600 ->
  let w1 := {| env := env w; trace := EvLoadRates :: trace w |} in
  (clock (env w) - snd found = seconds 3601 ->
     get_exchange_rate f t w
     = (run update_rates None;
        do rates <- load_rates;
        lift_result (find_rate rates (upper f) (upper t))) w1
     /\ update_calls (snd (get_exchange_rate f t w)) = S (update_calls w))
  /\ (clock (env w) - snd found = seconds 3599 ->
     get_exchange_rate f t w = (Ok found, w1)
     /\ update_calls (snd (get_exchange_rate f t w)) = update_calls w).
Proof.
  intros Hne Hfile Hfull Hfound Httl w1.
  pose proof (get_exchange_rate_found f t w rates found Hne Hfile Hfull Hfound)
    as Hrun.
  rewrite Httl in Hrun. unfold older_than in Hrun. simpl in Hrun.
  split; intros Hage; rewrite Hage in Hrun.
  - change (seconds 3600 <? seconds 3601) with true in Hrun.
    split; [exact Hrun|]. rewrite Hrun.
    exact (retry_outcome (upper f) (upper t) w1).
  - change (seconds 3600 <? seconds 3599) with false in Hrun.
    split; [exact Hrun|]. rewrite Hrun. reflexivity.
Qed.


End ResolverTriggers.

Lemma get_exchange_rate_ttl_boundary_witness :
  update_calls
    (snd (get_exchange_rate (PS := SpecParserService) "btc" "usd" (cached_world 3601)))
  = 1%nat
  /\ get_exchange_rate (PS := SpecParserService) "btc" "usd" (cached_world 3599)
     = (Ok (50000%float, T0),
        {| env := env (cached_world 3599); trace := [EvLoadRates] |}).
Proof.
  split.
  - refine (proj2 (proj1 (get_exchange_rate_ttl_boundary
             (PS := SpecParserService) "btc" "usd" (cached_world 3601)
             btc_cache (50000%float, T0) _ _ _ _ _) _)).
    + vm_compute; discriminate.
    + vm_compute; reflexivity.
    + vm_compute; reflexivity.
    + vm_compute; reflexivity.
    + vm_compute; reflexivity.
    + vm_compute; reflexivity.
  - refine (proj1 (proj2 (get_exchange_rate_ttl_boundary
             (PS := SpecParserService) "btc" "usd" (cached_world 3599)
             btc_cache (50000%float, T0) _ _ _ _ _) _)).
    + vm_compute; discriminate.
    + vm_compute; reflexivity.
    + vm_compute; reflexivity.
    + vm_compute; reflexivity.
    + vm_compute; reflexivity.
    + vm_compute; reflexivity.
Defined.

(** At the TTL itself the record is still fresh: the test is strict. *)
Example get_exchange_rate_at_ttl :
  trace (snd (get_exchange_rate (PS := SpecParserService) "btc" "usd" (cached_world 3600)))
  = [EvLoadRates].
Proof. vm_compute; reflexivity. Qed.



(** * The JSON store on a missing file *)

(** [DatabaseManager.load] itself creates the file and raises. *)
Lemma load_missing_file (path : string) (fs : DatabaseManager.FileSystem) :
  fs !! path = None ->
  DatabaseManager.load path fs
  = (Raise FileNotFoundError, <[path := Document (DatabaseManager.JList [])]> fs).
Proof.
  intros Hnone. unfold DatabaseManager.load, DatabaseManager.path_exists, bind.
  rewrite Hnone. rewrite bool_decide_eq_false_2 by (intros [? ?]; discriminate).
  reflexivity.
Qed.

(** C5: when no file exists at the path, loading through the store returns
    the empty document, which has no records and no [last_refresh], and
    leaves the file created with that document and every other file as it
    was; no [FileNotFoundError] reaches the caller. *)
Theorem load_json_missing_file (path : string) (fs : DatabaseManager.FileSystem) :
  fs !! path = None ->
  exists data fs',
    load_json path fs = (Ok data, fs')
    /\ data = DatabaseManager.JList []
    /\ DatabaseManager.truthy data = false
    /\ DatabaseManager.contains "last_refresh" data = Ok false
    /\ fs' !! path = Some (Document data)
    /\ (forall other, other <> path -> fs' !! other = fs !! other).
Proof.
  intros Hnone.
  exists (DatabaseManager.JList []),
    (<[path := Document (DatabaseManager.JList [])]> fs).
  unfold load_json, try_except. rewrite (load_missing_file path fs Hnone).
  simpl. repeat split.
  - apply lookup_insert_eq.
  - intros other Hother. now apply lookup_insert_ne.
Qed.

Lemma load_json_missing_file_witness :
  exists data fs',
    load_json "data/rates.json" ∅ = (Ok data, fs')
    /\ data = DatabaseManager.JList []
    /\ DatabaseManager.truthy data = false
    /\ DatabaseManager.contains "last_refresh" data = Ok false
    /\ fs' !! "data/rates.json" = Some (Document data)
    /\ (forall other, other <> "data/rates.json" ->
        fs' !! other = (∅ : DatabaseManager.FileSystem) !! other).
Proof.
  apply (load_json_missing_file "data/rates.json" ∅).
  reflexivity.
Defined.

(** The document of an existing file is returned as it is, and nothing is
    written. *)
Lemma load_json_existing_file (path : string) (fs : DatabaseManager.FileSystem)
    (data : DatabaseManager.json) :
  fs !! path = Some (Document data) -> load_json path fs = (Ok data, fs).
Proof.
  intros Hsome.
  unfold load_json, try_except, DatabaseManager.load,
    DatabaseManager.path_exists, DatabaseManager.read_json, bind.
  rewrite Hsome. rewrite bool_decide_eq_true_2 by eauto. simpl.
  now rewrite Hsome.
Qed.

(** The error of [json.load] on a malformed file is not the one
    [load_json] catches. *)
Lemma load_json_malformed_file (path : string) (fs : DatabaseManager.FileSystem)
    (msg : string) :
  fs !! path = Some (Malformed msg) ->
  load_json path fs = (Raise (JSONDecodeError msg), fs).
Proof.
  intros Hsome.
  unfold load_json, try_except, DatabaseManager.load,
    DatabaseManager.path_exists, DatabaseManager.read_json, bind.
  rewrite Hsome. rewrite bool_decide_eq_true_2 by eauto. simpl.
  now rewrite Hsome.
Qed.

(** * One refresh cycle of the updater of the spec *)

Lemma fetch_rates_file (c : SourceClient) (e : Env) :
  rates_file (snd (fetch c e)) = rates_file e.
Proof.
  destruct c; simpl.
  - destruct (coingecko_feed e); reflexivity.
  - destruct (exchangerate_feed e); reflexivity.
Qed.

(** Polling the sources does not touch the cache file. *)
Lemma poll_rates_file (clients : list SourceClient) (e : Env) :
  rates_file (snd (poll clients e)) = rates_file e.
Proof.
  revert e. induction clients as [|c cs IH]; intros e; simpl; [reflexivity|].
  pose proof (fetch_rates_file c e) as Hc.
  destruct (fetch c e) as [r e1]. simpl in Hc.
  specialize (IH e1). destruct (poll cs e1) as [rs e2]. simpl in *.
  congruence.
Qed.

Lemma all_unavailable_no_quotes (polled : list (SourceClient * FetchResult)) :
  Forall unavailable polled -> fetched_quotes polled = [].
Proof.
  induction 1 as [|cr rest Hcr _ IH]; [reflexivity|].
  unfold fetched_quotes in *. simpl. unfold unavailable in Hcr.
  now rewrite Hcr, IH.
Qed.

Lemma contribution_gives_quotes (polled : list (SourceClient * FetchResult)) :
  Exists contributes polled -> fetched_quotes polled <> [].
Proof.
  unfold fetched_quotes.
  induction 1 as [cr rest (o & obs & Hcr)|cr rest _ IH]; simpl.
  - rewrite Hcr. simpl. discriminate.
  - intros Hnil. apply app_eq_nil in Hnil. tauto.
Qed.

Lemma merge_quotes_empty (quotes : list (string * Observation)) (snap : snapshot) :
  merge_quotes quotes snap = ∅ -> quotes = [] /\ snap = ∅.
Proof.
  revert snap. induction quotes as [|q qs IH]; intros snap; [now split|].
  unfold merge_quotes in *. simpl. intros Hempty.
  apply IH in Hempty as [_ Hins].
  exfalso. revert Hins. apply insert_non_empty.
Qed.

(** With the parser service of the spec, the [try] block of [update_rates]
    is one run of the updater over the configured sources. *)
Lemma refresh_cycle_spec (source : option string) (e : Env) :
  refresh_cycle (PS := SpecParserService) source e
  = spec_run_update (configured_sources source) e.
Proof.
  unfold refresh_cycle, configured_sources, bind, ret. simpl.
  destruct (bool_decide (source = Some "coingecko")); [reflexivity|].
  destruct (bool_decide (source = Some "exchangerate")); reflexivity.
Qed.

Lemma update_rates_zero_quotes (source : option string) (w : World) :
  fetched_quotes (fst (poll (configured_sources source) (env w))) = [] ->
  fst (update_rates (PS := SpecParserService) source w)
  = Raise (ApiRequestError no_rates_message)
  /\ rates_file (env (snd (update_rates (PS := SpecParserService) source w)))
     = rates_file (env w).
Proof.
  intros Hnone.
  unfold update_rates, bind, log, try_except, lift_env. simpl.
  rewrite refresh_cycle_spec. unfold spec_run_update.
  pose proof (poll_rates_file (configured_sources source) (env w)) as Hfile.
  destruct (poll (configured_sources source) (env w)) as [polled e1].
  simpl in Hnone, Hfile. rewrite Hnone. simpl. split; [reflexivity|exact Hfile].
Qed.

Lemma update_rates_some_quotes (source : option string) (w : World) :
  fetched_quotes (fst (poll (configured_sources source) (env w))) <> [] ->
  fst (update_rates (PS := SpecParserService) source w) = Ok tt.
Proof.
  intros Hsome.
  unfold update_rates, bind, log, try_except, lift_env. simpl.
  rewrite refresh_cycle_spec. unfold spec_run_update.
  destruct (poll (configured_sources source) (env w)) as [polled e1].
  simpl in Hsome.
  destruct (fetched_quotes polled) as [|q qs] eqn:Hq; [congruence|].
  assert (Hcount : (Z.of_nat (size (merge_quotes (q :: qs) ∅)) =? 0) = false).
  { apply Z.eqb_neq. intros Hzero.
    assert (Hsize : size (merge_quotes (q :: qs) ∅) = 0%nat) by lia.
    apply map_size_empty_iff in Hsize.
    apply merge_quotes_empty in Hsize as [Hnil _]. discriminate. }
  set (batch := merge_quotes (q :: qs) ∅) in *.
  cbv beta iota zeta. rewrite Hcount. reflexivity.
Qed.

(** C2: in a refresh cycle in which every configured source fails, and
    more generally in which zero observations are merged, [update_rates]
    raises the no-rates error ([ApiRequestError] with the message that no
    rate was obtained from any client) and the cache file is as it was; in
    a cycle in which a source contributes an observation, no error is
    raised. *)
Theorem update_rates_no_rates_available (source : option string) (w : World) :
  let polled := fst (poll (configured_sources source) (env w)) in
  let outcome := update_rates (PS := SpecParserService) source w in
  (Forall unavailable polled ->
     fst outcome = Raise (ApiRequestError no_rates_message)
     /\ rates_file (env (snd outcome)) = rates_file (env w))
  /\ (fetched_quotes polled = [] ->
     fst outcome = Raise (ApiRequestError no_rates_message)
     /\ rates_file (env (snd outcome)) = rates_file (env w))
  /\ (Exists contributes polled -> fst outcome = Ok tt).
Proof.
  intros polled outcome. split; [|split].
  - intros Hfail. apply update_rates_zero_quotes.
    now apply all_unavailable_no_quotes.
  - intros Hzero. now apply update_rates_zero_quotes.
  - intros Hsome. apply update_rates_some_quotes.
    now apply contribution_gives_quotes.
Qed.

Lemma update_rates_no_rates_available_witness :
  (fst (update_rates (PS := SpecParserService) None offline_world)
   = Raise (ApiRequestError no_rates_message)
   /\ rates_file (env (snd (update_rates (PS := SpecParserService) None offline_world)))
      = rates_file (env offline_world))
  /\ fst (update_rates (PS := SpecParserService) None fresh_world) = Ok tt.
Proof.
  split.
  - apply (proj1 (update_rates_no_rates_available None offline_world)).
    repeat constructor.
  - apply (proj2 (proj2 (update_rates_no_rates_available None fresh_world))).
    apply Exists_cons_hd. eexists. eexists. vm_compute. reflexivity.
Defined.

(** Partial success: one source failing while the other answers is not an
    error, and the cache then holds the quote and [last_refresh]. *)
Example update_rates_partial_success :
  let outcome := update_rates (PS := SpecParserService) None fresh_world in
  fst outcome = Ok tt
  /\ (exists snap,
        rates_file (env (snd outcome)) = Some snap
        /\ snap !! "BTC_USD"
           = Some (Quote {| rate := 50000%float; updated_at := T0;
                            source := "CoinGecko" |})
        /\ snap !! "last_refresh" = Some (Stamp (T0 + seconds 10))).
Proof.
  split; [vm_compute; reflexivity|].
  eexists. split; [vm_compute; reflexivity|].
  split; vm_compute; reflexivity.
Qed.

(** * Further properties of the lookup *)

(** X1: [find_rate] reports a pair as not found exactly when neither direction
    is stored, and then names the pair as asked. *)
Theorem find_rate_not_found_iff (rates : snapshot) (a b : string) (msg : string) :
  find_rate rates a b = Raise (RateNotFoundError msg)
  <-> (rates !! pair_key a b = None
       /\ rates !! pair_key b a = None
       /\ msg = a ++ "→" ++ b).
Proof.
  split.
  - unfold find_rate.
    destruct (rates !! pair_key a b) as [[r|t|s]|]; simpl; try discriminate.
    destruct (rates !! pair_key b a) as [[r|t|s]|]; simpl; try discriminate.
    + unfold true_div_one. destruct (PrimFloat.eqb (rate r) 0); discriminate.
    + intros H. injection H as <-. auto.
  - intros (Hd & Hr & ->). now apply find_rate_absent.
Qed.

(** A stored direction is never answered with the rate of a third pair:
    whatever [find_rate] returns comes from the record under the direct key
    or, when that key is absent, from the record under the reverse key. *)
Theorem find_rate_answer_origin (rates : snapshot) (a b : string)
    (found : float * datetime) :
  find_rate rates a b = Ok found ->
  (exists rec, rates !! pair_key a b = Some (Quote rec)
               /\ found = (rate rec, updated_at rec))
  \/ (exists rec, rates !! pair_key a b = None
                  /\ rates !! pair_key b a = Some (Quote rec)
                  /\ PrimFloat.eqb (rate rec) 0%float = false
                  /\ found = (PrimFloat.div 1%float (rate rec), updated_at rec)).
Proof.
  unfold find_rate.
  destruct (rates !! pair_key a b) as [[r|t|s]|]; simpl; try discriminate.
  - intros H. injection H as <-. left. eauto.
  - destruct (rates !! pair_key b a) as [[r|t|s]|]; simpl; try discriminate.
    unfold true_div_one.
    destruct (PrimFloat.eqb (rate r) 0) eqn:Hz; simpl; [discriminate|].
    intros H. injection H as <-. right. exists r. auto.
Qed.

Lemma find_rate_answer_origin_witness :
  (exists rec, btc_cache !! pair_key "USD" "BTC" = Some (Quote rec)
               /\ (PrimFloat.div 1 50000, T0) = (rate rec, updated_at rec))
  \/ (exists rec, btc_cache !! pair_key "USD" "BTC" = None
                  /\ btc_cache !! pair_key "BTC" "USD" = Some (Quote rec)
                  /\ PrimFloat.eqb (rate rec) 0%float = false
                  /\ (PrimFloat.div 1 50000, T0)
                     = (PrimFloat.div 1%float (rate rec), updated_at rec)).
Proof.
  apply (find_rate_answer_origin btc_cache "USD" "BTC").
  vm_compute. reflexivity.
Defined.

Section ResolverEdges.

Context {PS : ParserService}.

(** A lookup error other than not-found ends the call at once. *)
Lemma get_exchange_rate_lookup_error (f t : string) (w : World)
    (rates : snapshot) (e : exn) :
  upper f <> upper t ->
  rates_file (env w) = Some rates ->
  cache_is_empty rates = false ->
  find_rate rates (upper f) (upper t) = Raise e ->
  is_RateNotFoundError e = false ->
  get_exchange_rate f t w
  = (Raise e, {| env := env w; trace := EvLoadRates :: trace w |}).
Proof.
  intros Hne Hfile Hfull Hfound Hother. unfold get_exchange_rate.
  apply String.eqb_neq in Hne. rewrite Hne.
  rewrite (bind_ok _ _ _ _ _ (load_rates_some w rates Hfile)).
  rewrite Hfull.
  unfold bind at 1. unfold ret at 1.
  unfold bind at 1. unfold try_except, lift_result at 1. rewrite Hfound.
  now rewrite Hother.
Qed.

(** X2: When only the opposite direction is stored and its rate is zero, the
    call raises [ZeroDivisionError]: the error is not treated as a miss, no
    refresh is requested and the environment is left as it was. *)
Theorem get_exchange_rate_zero_rate (f t : string) (w : World)
    (rates : snapshot) (rec : RateRecord) :
  upper f <> upper t ->
  rates_file (env w) = Some rates ->
  cache_is_empty rates = false ->
  rates !! pair_key (upper f) (upper t) = None ->
  rates !! pair_key (upper t) (upper f) = Some (Quote rec) ->
  PrimFloat.eqb (rate rec) 0%float = true ->
  get_exchange_rate f t w
  = (Raise ZeroDivisionError, {| env := env w; trace := EvLoadRates :: trace w |}).
Proof.
  intros Hne Hfile Hfull Hd Hr Hzero.
  apply (get_exchange_rate_lookup_error f t w rates); auto.
  unfold find_rate. rewrite Hd, Hr. simpl. unfold true_div_one.
  now rewrite Hzero.
Qed.

(** [update_rates] returns normally exactly when the refresh cycle returns
    a count other than zero, and then leaves the environment the cycle
    left. *)
Theorem update_rates_succeeds_iff (source : option string) (w : World) :
  fst (update_rates source w) = Ok tt
  <-> (exists cnt, fst (refresh_cycle source (env w)) = Ok cnt /\ cnt <> 0).
Proof.
  unfold update_rates, bind, log, try_except, lift_env, raise, ret. simpl.
  destruct (refresh_cycle source (env w)) as [[cnt|x] e']; simpl.
  - destruct (cnt =? 0) eqn:Hcnt; simpl.
    + apply Z.eqb_eq in Hcnt. split; [discriminate|].
      intros (c & Hc & Hnz). congruence.
    + apply Z.eqb_neq in Hcnt. split; [eauto|reflexivity].
  - split.
    + destruct (is_ApiRequestError x); discriminate.
    + intros (c & Hc & _). discriminate.
Qed.

(** The environment after [update_rates] is the one the refresh cycle
    left, whether the call returns or raises. *)
Theorem update_rates_env (source : option string) (w : World) :
  env (snd (update_rates source w)) = snd (refresh_cycle source (env w)).
Proof.
  unfold update_rates, bind, log, try_except, lift_env, raise, ret. simpl.
  destruct (refresh_cycle source (env w)) as [[cnt|x] e']; simpl.
  - destruct (cnt =? 0); reflexivity.
  - destruct (is_ApiRequestError x); reflexivity.
Qed.

(** X3: A source name other than ["coingecko"] and ["exchangerate"] is not
    rejected: the cycle runs over both clients, as with no name at all. *)
Theorem refresh_cycle_unknown_source (name : string) (e : Env) :
  name <> "coingecko" ->
  name <> "exchangerate" ->
  refresh_cycle (Some name) e = refresh_cycle None e.
Proof.
  intros Hc He. unfold refresh_cycle.
  rewrite !bool_decide_eq_false_2 by congruence. reflexivity.
Qed.

(** X4: A record older than the TTL is not served when the refresh fails: the
    call raises the error of [update_rates]. *)
Theorem get_exchange_rate_stale_refresh_fails (f t : string) (w : World)
    (rates : snapshot) (found : float * datetime) (e : exn) (w2 : World) :
  upper f <> upper t ->
  rates_file (env w) = Some rates ->
  cache_is_empty rates = false ->
  find_rate rates (upper f) (upper t) = Ok found ->
  older_than (clock (env w)) (snd found)
    (default 3600 (settings (env w) !! "RATES_TTL_SECONDS")) = true ->
  update_rates None {| env := env w; trace := EvLoadRates :: trace w |}
  = (Raise e, w2) ->
  get_exchange_rate f t w = (Raise e, w2).
Proof.
  intros Hne Hfile Hfull Hfound Hold Hupd.
  rewrite (get_exchange_rate_found f t w rates found Hne Hfile Hfull Hfound).
  cbv zeta. rewrite Hold. now apply bind_raise.
Qed.

(** X5: After the refresh a stale record triggers, the reloaded lookup is
    returned as it is: its age is not tested again. *)
Theorem get_exchange_rate_stale_refresh_answers (f t : string) (w : World)
    (rates : snapshot) (found found2 : float * datetime) (w2 : World) :
  upper f <> upper t ->
  rates_file (env w) = Some rates ->
  cache_is_empty rates = false ->
  find_rate rates (upper f) (upper t) = Ok found ->
  older_than (clock (env w)) (snd found)
    (default 3600 (settings (env w) !! "RATES_TTL_SECONDS")) = true ->
  update_rates None {| env := env w; trace := EvLoadRates :: trace w |}
  = (Ok tt, w2) ->
  find_rate (default ∅ (rates_file (env w2))) (upper f) (upper t) = Ok found2 ->
  fst (get_exchange_rate f t w) = Ok found2
  /\ trace (snd (get_exchange_rate f t w))
     = EvLoadRates :: EvUpdateRates None :: EvLoadRates :: trace w.
Proof.
  intros Hne Hfile Hfull Hfound Hold Hupd Hfound2.
  rewrite (get_exchange_rate_found f t w rates found Hne Hfile Hfull Hfound).
  cbv zeta. rewrite Hold.
  pose proof (update_rates_trace None
                {| env := env w; trace := EvLoadRates :: trace w |}) as Htr.
  rewrite Hupd in Htr. simpl in Htr.
  rewrite (bind_ok _ _ _ _ _ Hupd).
  destruct (load_rates_value w2) as (e3 & Hload & _).
  rewrite (bind_ok _ _ _ _ _ Hload). rewrite Hfound2.
  unfold lift_result. simpl. rewrite Htr. split; reflexivity.
Qed.

(** X6: A cache that is empty or carries no [last_refresh] is refreshed before
    any lookup: if that refresh fails the call fails with its error, even
    when the pair asked for is stored. *)
Theorem get_exchange_rate_unstamped_cache (f t : string) (w : World)
    (e : exn) (w2 : World) :
  upper f <> upper t ->
  cache_is_empty (default ∅ (rates_file (env w))) = true ->
  update_rates None (snd (load_rates w)) = (Raise e, w2) ->
  get_exchange_rate f t w = (Raise e, w2).
Proof.
  intros Hne Hempty Hupd. unfold get_exchange_rate.
  apply String.eqb_neq in Hne. rewrite Hne.
  destruct (load_rates_value w) as (e1 & Hload & _).
  rewrite Hload in Hupd. simpl in Hupd.
  rewrite (bind_ok _ _ _ _ _ Hload). rewrite Hempty.
  unfold bind at 1.
  now rewrite (bind_raise _ _ _ _ _ Hupd).
Qed.

End ResolverEdges.

Lemma get_exchange_rate_zero_rate_witness :
  get_exchange_rate (PS := SpecParserService) "usd" "btc" zero_rate_world
  = (Raise ZeroDivisionError,
     {| env := env zero_rate_world; trace := EvLoadRates :: trace zero_rate_world |}).
Proof.
  refine (get_exchange_rate_zero_rate (PS := SpecParserService) "usd" "btc"
            zero_rate_world zero_rate_cache
            {| rate := 0%float; updated_at := T0; source := "manual" |}
            _ _ _ _ _ _).
  - vm_compute; discriminate.
  - vm_compute; reflexivity.
  - vm_compute; reflexivity.
  - vm_compute; reflexivity.
  - vm_compute; reflexivity.
  - vm_compute; reflexivity.
Defined.

Lemma refresh_cycle_unknown_source_witness :
  refresh_cycle (PS := SpecParserService) (Some "CoinGecko") (env fresh_world)
  = refresh_cycle (PS := SpecParserService) None (env fresh_world).
Proof.
  apply (refresh_cycle_unknown_source (PS := SpecParserService) "CoinGecko"
           (env fresh_world)); discriminate.
Defined.

Lemma get_exchange_rate_stale_refresh_fails_witness :
  get_exchange_rate (PS := SpecParserService) "btc" "usd" stale_offline_world
  = (Raise (ApiRequestError no_rates_message),
     {| env := env stale_offline_world;
        trace := [EvUpdateRates None; EvLoadRates] |}).
Proof.
  refine (get_exchange_rate_stale_refresh_fails (PS := SpecParserService)
            "btc" "usd" stale_offline_world btc_cache (50000%float, T0)
            _ _ _ _ _ _ _ _).
  - vm_compute; discriminate.
  - vm_compute; reflexivity.
  - vm_compute; reflexivity.
  - vm_compute; reflexivity.
  - vm_compute; reflexivity.
  - vm_compute; reflexivity.
Defined.

Lemma get_exchange_rate_stale_refresh_answers_witness :
  fst (get_exchange_rate (PS := SpecParserService) "btc" "usd" (cached_world 3601))
  = Ok (50000%float, T0)
  /\ trace (snd (get_exchange_rate (PS := SpecParserService) "btc" "usd"
                   (cached_world 3601)))
     = EvLoadRates :: EvUpdateRates None :: EvLoadRates :: trace (cached_world 3601).
Proof.
  refine (get_exchange_rate_stale_refresh_answers (PS := SpecParserService)
            "btc" "usd" (cached_world 3601) btc_cache (50000%float, T0)
            (50000%float, T0)
            (snd (update_rates (PS := SpecParserService) None
                    {| env := env (cached_world 3601);
                       trace := EvLoadRates :: trace (cached_world 3601) |}))
            _ _ _ _ _ _ _).
  - vm_compute; discriminate.
  - vm_compute; reflexivity.
  - vm_compute; reflexivity.
  - vm_compute; reflexivity.
  - vm_compute; reflexivity.
  - vm_compute; reflexivity.
  - vm_compute; reflexivity.
Defined.

Lemma get_exchange_rate_unstamped_cache_witness :
  get_exchange_rate (PS := SpecParserService) "btc" "usd" unstamped_offline_world
  = (Raise (ApiRequestError no_rates_message),
     {| env := env unstamped_offline_world;
        trace := [EvUpdateRates None; EvLoadRates] |}).
Proof.
  refine (get_exchange_rate_unstamped_cache (PS := SpecParserService)
            "btc" "usd" unstamped_offline_world _ _ _ _ _).
  - vm_compute; discriminate.
  - vm_compute; reflexivity.
  - vm_compute; reflexivity.
Defined.

(** * Further properties of the JSON store *)

(** X7: What [save_json] writes, [load_json] returns, and the load writes
    nothing. *)
Theorem save_json_load_json (path : string) (data : DatabaseManager.json)
    (fs : DatabaseManager.FileSystem) :
  load_json path (snd (save_json path data fs))
  = (Ok data, snd (save_json path data fs)).
Proof.
  unfold save_json, DatabaseManager.save. simpl.
  apply load_json_existing_file. apply lookup_insert_eq.
Qed.

(** X8: On a file that is no JSON document [load_json] raises: the
    [JSONDecodeError] of [json.load] is not among the errors it catches,
    and nothing is written. On a file holding a document it returns that
    document and writes nothing; on a missing file it returns the empty
    list. In every case a second load finds the file as the first left
    it: it answers the same and writes nothing. *)
Theorem load_json_stable (path : string) (fs : DatabaseManager.FileSystem) :
  match fs !! path with
  | Some (Malformed msg) => load_json path fs = (Raise (JSONDecodeError msg), fs)
  | Some (Document data) => load_json path fs = (Ok data, fs)
  | None => fst (load_json path fs) = Ok (DatabaseManager.JList [])
  end
  /\ load_json path (snd (load_json path fs))
     = (fst (load_json path fs), snd (load_json path fs)).
Proof.
  destruct (fs !! path) as [[data|msg]|] eqn:Hfile.
  - rewrite (load_json_existing_file path fs data Hfile). simpl.
    split; [reflexivity|]. now apply load_json_existing_file.
  - rewrite (load_json_malformed_file path fs msg Hfile). simpl.
    split; [reflexivity|]. now apply load_json_malformed_file.
  - assert (Hfirst : load_json path fs
                     = (Ok (DatabaseManager.JList []),
                        <[path := Document (DatabaseManager.JList [])]> fs)).
    { unfold load_json, try_except.
      now rewrite (load_missing_file path fs Hfile). }
    rewrite Hfirst. simpl.
    split; [reflexivity|]. apply load_json_existing_file.
    apply lookup_insert_eq.
Qed.

(** X9: [DatabaseManager.load] raises [FileNotFoundError] exactly when the
    file is missing; having created it on the way, it succeeds when called
    again, with the empty list. On an existing file a second call answers
    as the first: with the stored document, or with the error of
    [json.load] on a file that holds none. *)
Theorem load_raises_once (path : string) (fs : DatabaseManager.FileSystem) :
  (fst (DatabaseManager.load path fs) = Raise FileNotFoundError
   <-> fs !! path = None)
  /\ DatabaseManager.load path (snd (DatabaseManager.load path fs))
     = (match fs !! path with
        | Some (Document data) => Ok data
        | Some (Malformed msg) => Raise (JSONDecodeError msg)
        | None => Ok (DatabaseManager.JList [])
        end,
        snd (DatabaseManager.load path fs)).
Proof.
  assert (Hexisting : forall (g : DatabaseManager.FileSystem) d,
            g !! path = Some d ->
            DatabaseManager.load path g
            = (match d with
               | Document data => Ok data
               | Malformed msg => Raise (JSONDecodeError msg)
               end, g)).
  { intros g d Hg.
    unfold DatabaseManager.load, DatabaseManager.path_exists,
      DatabaseManager.read_json, bind.
    rewrite Hg. rewrite bool_decide_eq_true_2 by eauto. simpl.
    rewrite Hg. destruct d; reflexivity. }
  destruct (fs !! path) as [d|] eqn:Hfile.
  - rewrite (Hexisting fs d Hfile). simpl. split.
    + split; [|discriminate]. destruct d; discriminate.
    + rewrite (Hexisting fs d Hfile). destruct d; reflexivity.
  - rewrite (load_missing_file path fs Hfile). simpl. split.
    + split; reflexivity.
    + rewrite (Hexisting _ (Document (DatabaseManager.JList []))
                 (lookup_insert_eq _ _ _)).
      reflexivity.
Qed.

(** X10: Saving one file leaves every other file as it was: loading another
    path after the save gives what it gave before. *)
Theorem save_json_other_files (path other : string) (data : DatabaseManager.json)
    (fs : DatabaseManager.FileSystem) :
  other <> path ->
  fst (load_json other (snd (save_json path data fs))) = fst (load_json other fs).
Proof.
  intros Hother. unfold save_json, DatabaseManager.save. simpl.
  destruct (fs !! other) as [[d|msg]|] eqn:Hfile.
  - rewrite (load_json_existing_file other fs d Hfile). simpl.
    rewrite (load_json_existing_file other (<[path:=Document data]> fs) d);
      [reflexivity|].
    now rewrite lookup_insert_ne.
  - rewrite (load_json_malformed_file other fs msg Hfile). simpl.
    rewrite (load_json_malformed_file other (<[path:=Document data]> fs) msg);
      [reflexivity|].
    now rewrite lookup_insert_ne.
  - unfold load_json, try_except.
    rewrite (load_missing_file other fs Hfile).
    rewrite (load_missing_file other (<[path:=Document data]> fs))
      by now rewrite lookup_insert_ne.
    reflexivity.
Qed.

Lemma save_json_other_files_witness :
  fst (load_json "users.json"
         (snd (save_json "portfolios.json" (DatabaseManager.JList []) ∅)))
  = fst (load_json "users.json" ∅).
Proof.
  apply (save_json_other_files "portfolios.json" "users.json").
  discriminate.
Defined.

(** * The currency registry *)

Lemma is_space_upper_ascii (c : ascii) : is_space (upper_ascii c) = is_space c.
Proof. destruct c as [[] [] [] [] [] [] [] []]; reflexivity. Qed.

Lemma upper_ascii_not_lower (c : ascii) :
  is_lower_letter c = false -> upper_ascii c = c.
Proof.
  destruct c as [[] [] [] [] [] [] [] []]; vm_compute; intros H;
    first [reflexivity | discriminate H].
Qed.

Lemma lstrip_upper (s : string) : lstrip (upper s) = upper (lstrip s).
Proof.
  induction s as [|c s IH]; simpl; [reflexivity|].
  rewrite is_space_upper_ascii. destruct (is_space c); [exact IH|reflexivity].
Qed.

Lemma rstrip_upper (s : string) : rstrip (upper s) = upper (rstrip s).
Proof.
  induction s as [|c s IH]; simpl; [reflexivity|].
  rewrite IH, is_space_upper_ascii.
  destruct (rstrip s) as [|d r]; simpl; [|reflexivity].
  destruct (is_space c); reflexivity.
Qed.

Lemma strip_upper (s : string) : strip (upper s) = upper (strip s).
Proof. unfold strip. now rewrite lstrip_upper, rstrip_upper. Qed.

Lemma rstrip_idem (s : string) : rstrip (rstrip s) = rstrip s.
Proof.
  induction s as [|c s IH]; simpl; [reflexivity|].
  destruct (rstrip s) as [|d r] eqn:Hr.
  - destruct (is_space c) eqn:Hc; simpl; [reflexivity|]. now rewrite Hc.
  - change (rstrip (String c (String d r)))
      with (match rstrip (String d r) with
            | EmptyString => if is_space c then EmptyString else String c EmptyString
            | String d' r' => String c (String d' r')
            end).
    now rewrite IH.
Qed.

(** A string that does not start with white space. *)
Lemma lstrip_lstripped (s : string) :
  match lstrip s with
  | EmptyString => True
  | String c _ => is_space c = false
  end.
Proof.
  induction s as [|c s IH]; simpl; [exact I|].
  destruct (is_space c) eqn:Hc; [exact IH|exact Hc].
Qed.

Lemma rstrip_keeps_head (c : ascii) (s : string) :
  is_space c = false -> exists r, rstrip (String c s) = String c r.
Proof.
  intros Hc. simpl. destruct (rstrip s) as [|d r]; [|eauto].
  rewrite Hc. eauto.
Qed.

Lemma strip_idem (s : string) : strip (strip s) = strip s.
Proof.
  unfold strip. pose proof (lstrip_lstripped s) as Hhead.
  destruct (lstrip s) as [|c t] eqn:Ht; [reflexivity|].
  destruct (rstrip_keeps_head c t Hhead) as [r Hr].
  rewrite Hr. simpl lstrip. rewrite Hhead. rewrite <- Hr. apply rstrip_idem.
Qed.

Lemma isupper_upper (s : string) : isupper s = true -> upper s = s.
Proof.
  unfold isupper. intros H. apply andb_true_iff in H as [_ Hlow].
  apply negb_true_iff in Hlow.
  induction s as [|c s IH]; simpl in *; [reflexivity|].
  apply orb_false_iff in Hlow as [Hc Hs].
  now rewrite (upper_ascii_not_lower c Hc), (IH Hs).
Qed.

(** X11: A lookup in the registry does not depend on the letter case of the
    code nor on white space around it, whatever the registry holds. *)
Theorem get_currency_normalizes (code : string) (reg : CurrencyRegistry.Registry) :
  get_currency code reg = get_currency (upper code) reg
  /\ get_currency code reg = get_currency (strip code) reg.
Proof.
  unfold get_currency, CurrencyRegistry.get. split.
  - now rewrite upper_idem.
  - assert (Hsame : strip (upper (strip code)) = strip (upper code))
      by (now rewrite !strip_upper, strip_idem).
    now rewrite Hsame.
Qed.

Lemma validated_code_upper (info : CurrencyInfo) :
  _validate_info info = Ok tt -> upper (code info) = code info.
Proof.
  unfold _validate_info. intros H.
  destruct (is_empty (name info) || is_empty (strip (name info)));
    [discriminate|].
  destruct (is_empty (code info) || negb (isupper (code info))) eqn:Hcode;
    [discriminate|].
  apply orb_false_iff in Hcode as [_ Hup]. apply negb_false_iff in Hup.
  now apply isupper_upper.
Qed.

(** X12: A currency that passes the validation of [BaseCurrency] and whose code
    has no white space at either end is found again under its code once
    registered. *)
Theorem register_then_get (currency : BaseCurrency) (reg : CurrencyRegistry.Registry) :
  _validate_info currency = Ok tt ->
  strip (code currency) = code currency ->
  CurrencyRegistry.get (code currency)
    (snd (CurrencyRegistry.register currency reg))
  = (Ok currency, snd (CurrencyRegistry.register currency reg)).
Proof.
  intros Hvalid Hstrip.
  unfold CurrencyRegistry.get, CurrencyRegistry.register. simpl.
  rewrite (validated_code_upper currency Hvalid), Hstrip.
  now rewrite lookup_insert_eq.
Qed.

Lemma register_then_get_witness :
  CurrencyRegistry.get "CHF"
    (snd (CurrencyRegistry.register
            {| name := "Franc"; code := "CHF"; currency_type := FIAT;
               issuing_country := Some "Switzerland"; algorithm := None;
               market_cap := None |} _registry))
  = (Ok {| name := "Franc"; code := "CHF"; currency_type := FIAT;
           issuing_country := Some "Switzerland"; algorithm := None;
           market_cap := None |},
     snd (CurrencyRegistry.register
            {| name := "Franc"; code := "CHF"; currency_type := FIAT;
               issuing_country := Some "Switzerland"; algorithm := None;
               market_cap := None |} _registry)).
Proof.
  apply (register_then_get
           {| name := "Franc"; code := "CHF"; currency_type := FIAT;
              issuing_country := Some "Switzerland"; algorithm := None;
              market_cap := None |} _registry); reflexivity.
Defined.

(** The validation forbids a space in a code but not a tab: such a code is
    accepted, and the currency registered under it is out of reach of
    [get], which strips the code it is asked for. *)
Example tab_in_code_is_unreachable :
  exists currency,
    Fiat "Franc" (String "C" (String "H" (String "009" EmptyString))) "Switzerland"
    = Ok currency
    /\ fst (CurrencyRegistry.get (code currency)
              (snd (CurrencyRegistry.register currency ∅)))
       = Raise (CurrencyNotFoundError "CH").
Proof. eexists. split; vm_compute; reflexivity. Qed.

Lemma registry_contents :
  _registry
  = list_to_map
      (map (fun c => (code c, c))
         [ {| name := "Доллар США"; code := "USD"; currency_type := FIAT;
              issuing_country := Some "Соединенные Штаты"; algorithm := None;
              market_cap := None |};
           {| name := "Евро"; code := "EUR"; currency_type := FIAT;
              issuing_country := Some "Европейский союз"; algorithm := None;
              market_cap := None |};
           {| name := "Российский рубль"; code := "RUB"; currency_type := FIAT;
              issuing_country := Some "Россия"; algorithm := None;
              market_cap := None |};
           {| name := "Британский фунт"; code := "GBP"; currency_type := FIAT;
              issuing_country := Some "Великобритания"; algorithm := None;
              market_cap := None |};
           {| name := "Биткойн"; code := "BTC"; currency_type := CRYPTO;
              issuing_country := None; algorithm := Some "SHA-256";
              market_cap := Some 1120000000000%float |};
           {| name := "Эфириум"; code := "ETH"; currency_type := CRYPTO;
              issuing_country := None; algorithm := Some "Ethash";
              market_cap := Some 390000000000%float |};
           {| name := "Солана"; code := "SOL"; currency_type := CRYPTO;
              issuing_country := None; algorithm := Some "Proof of History";
              market_cap := Some 10000000000%float |} ]).
Proof. vm_compute. reflexivity. Qed.

Lemma registry_lookup (key : string) (currency : BaseCurrency) :
  _registry !! key = Some currency ->
  code currency = key /\ In key registered_codes.
Proof.
  rewrite registry_contents. simpl.
  repeat (rewrite lookup_insert; case_decide;
          [intros Hfound; injection Hfound as <-; subst key;
           split; [reflexivity|unfold registered_codes; simpl; tauto]|]).
  rewrite lookup_empty. discriminate.
Qed.

Lemma registry_complete (key : string) :
  In key registered_codes -> is_Some (_registry !! key).
Proof.
  unfold registered_codes. simpl.
  intros [<-|[<-|[<-|[<-|[<-|[<-|[<-|[]]]]]]]]; vm_compute; eauto.
Qed.

(** X13: With the registry as the module creates it, [get_currency] succeeds
    exactly on the seven registered codes, taken up to letter case and
    surrounding white space; it then returns the currency of that code, and
    otherwise raises [CurrencyNotFoundError] with the normalized code. *)
Theorem get_currency_supported (code0 : string) :
  match fst (get_currency code0 _registry) with
  | Ok currency =>
      code currency = strip (upper code0)
      /\ In (strip (upper code0)) registered_codes
  | Raise e =>
      e = CurrencyNotFoundError (strip (upper code0))
      /\ ~ In (strip (upper code0)) registered_codes
  end
  /\ snd (get_currency code0 _registry) = _registry.
Proof.
  unfold get_currency, CurrencyRegistry.get.
  destruct (_registry !! strip (upper code0)) as [currency|] eqn:Hlookup; simpl.
  - split; [|reflexivity]. now apply registry_lookup.
  - split; [|reflexivity]. split; [reflexivity|].
    intros Hin. apply registry_complete in Hin as [c Hc]. congruence.
Qed.

(** * Dicts in insertion order *)

Lemma dict_get_set_eq {V : Type} (k : string) (v : V) (d : list (string * V)) :
  dict_get k (dict_set k v d) = Some v.
Proof.
  induction d as [|[k' v'] rest IH]; simpl.
  - now rewrite String.eqb_refl.
  - destruct (String.eqb k' k) eqn:Hk; simpl.
    + now rewrite String.eqb_refl.
    + now rewrite Hk.
Qed.

Lemma dict_get_set_ne {V : Type} (k k0 : string) (v : V) (d : list (string * V)) :
  k <> k0 -> dict_get k0 (dict_set k v d) = dict_get k0 d.
Proof.
  intros Hne. induction d as [|[k' v'] rest IH]; simpl.
  - apply String.eqb_neq in Hne. now rewrite Hne.
  - destruct (String.eqb k' k) eqn:Hk; simpl.
    + apply String.eqb_eq in Hk. subst k'.
      apply String.eqb_neq in Hne. now rewrite Hne.
    + destruct (String.eqb k' k0); [reflexivity|exact IH].
Qed.

Lemma dict_get_none {V : Type} (k : string) (d : list (string * V)) :
  dict_get k d = None <-> ~ In k (map fst d).
Proof.
  induction d as [|[k' v'] rest IH]; simpl; [tauto|].
  destruct (String.eqb k' k) eqn:Hk.
  - apply String.eqb_eq in Hk. split; [discriminate|tauto].
  - apply String.eqb_neq in Hk. tauto.
Qed.

Lemma dict_set_fresh {V : Type} (k : string) (v : V) (d : list (string * V)) :
  ~ In k (map fst d) -> dict_set k v d = (d ++ [(k, v)])%list.
Proof.
  induction d as [|[k' v'] rest IH]; simpl; [reflexivity|].
  intros Hfresh. destruct (String.eqb k' k) eqn:Hk.
  - apply String.eqb_eq in Hk. tauto.
  - rewrite IH by tauto. reflexivity.
Qed.

(** * Fresh user ids *)

Lemma fold_max_bounds (rest : list UserInfo.t) (start : Z) :
  start <= fold_left (fun m v => Z.max m (UserInfo.user_id v)) rest start
  /\ (forall u, In u rest ->
        UserInfo.user_id u
        <= fold_left (fun m v => Z.max m (UserInfo.user_id v)) rest start).
Proof.
  revert start. induction rest as [|v rest IH]; intros start; simpl.
  - split; [lia|tauto].
  - destruct (IH (Z.max start (UserInfo.user_id v))) as [Hstart Hrest].
    split; [lia|]. intros u [<-|Hin]; [lia|auto].
Qed.

Lemma next_id_above (records : list UserInfo.t) (u : UserInfo.t) :
  In u records -> UserInfo.user_id u < next_id records.
Proof.
  destruct records as [|first rest]; [intros []|].
  unfold next_id.
  destruct (fold_max_bounds rest (UserInfo.user_id first)) as [Hfirst Hrest].
  intros [<-|Hin]; [lia|]. specialize (Hrest u Hin). lia.
Qed.

Lemma next_id_not_in (records : list UserInfo.t) :
  ~ In (next_id records) (map UserInfo.user_id records).
Proof.
  intros Hin. apply in_map_iff in Hin as (u & Hid & Hu).
  pose proof (next_id_above records u Hu). lia.
Qed.

(** X14: [next_id] returns 1 on no records, and otherwise an id above the id of
    every record it is given, hence an id none of them holds. *)
Theorem next_id_fresh (records : list UserInfo.t) :
  next_id [] = 1
  /\ (forall u, In u records -> UserInfo.user_id u < next_id records)
  /\ ~ In (next_id records) (map UserInfo.user_id records).
Proof.
  split; [reflexivity|]. split.
  - intros u. apply next_id_above.
  - apply next_id_not_in.
Qed.

(** * Registration *)

Section Accounts.

Context {PF : Platform}.

(** [User(user_id, username, password)]: the salt and the date are drawn
    from the clock, and the session is only read. *)
Lemma User_new_fresh (uid : Z) (uname password : string) (s : Session) :
  User_new uid uname password None None s
  = if (String.length password <? 4)%nat then
      (Raise (ValueError "🔐 Пароль должен содержать минимум 4 символа"), s)
    else if is_empty (strip uname) then
      (Raise (ValueError "👤 Имя пользователя не может быть пустым"), s)
    else
      (Ok {| User._user_id := uid;
             User._username := strip uname;
             User._hashed_password := hash_password password (salt_at s);
             User._salt := salt_at s;
             User._registration_date := clock (env (world s)) |}, s).
Proof.
  unfold User_new, validate_password_strength, salt_at.
  destruct (String.length password <? 4)%nat; [reflexivity|].
  unfold bind, lift_result, generate_salt, session_now, bind, ret, raise.
  destruct (is_empty (strip uname)); reflexivity.
Qed.

(** A branch of a use case that raises. *)
Ltac raises := eexists; eexists; split; [reflexivity|exact I].

(** What a registration that returns has found and left: none of its
    refusals applied, both files could be loaded, and the new user and the
    initial portfolio entry are appended to their documents, nothing else
    being touched. *)
Lemma register_cases (username password : string) (s : Session) :
  exists r s',
    register username password s = (r, s')
    /\ match r with
       | Raise _ => True
       | Ok _ =>
           name_taken username s = false
           /\ (String.length password <? 4)%nat = false
           /\ is_empty (strip username) = false
           /\ s' = {| users_file :=
                        Some (Document
                                (stored_users s
                                 ++ [registered_user username password s])%list);
                      portfolios_file :=
                        Some (Document (stored_portfolios s ++ [initial_entry s])%list);
                      world := world s;
                      _current_user := _current_user s;
                      _current_portfolio := _current_portfolio s |}
       end.
Proof.
  unfold register, name_taken, stored_users, stored_portfolios.
  destruct s as [users pfs w cu cp].
  unfold bind at 1. unfold load_users at 1.
  cbn [users_file portfolios_file world _current_user _current_portfolio].
  destruct users as [[users|m1]|]; [|raises|]; cbn [entries];
    (destruct (existsb _ _) eqn:Htaken; [raises|]);
    (destruct (String.length password <? 4)%nat eqn:Hlen; [raises|]);
    unfold bind at 1; rewrite User_new_fresh, Hlen;
    (destruct (is_empty (strip username)) eqn:Hname; [raises|]);
    unfold bind at 1; unfold save_users at 1;
    unfold bind at 1; unfold load_portfolios at 1;
    cbn [users_file portfolios_file world _current_user _current_portfolio];
    (destruct pfs as [[pfs|m2]|]; [|raises|]);
    unfold bind, save_portfolios, ret;
    eexists; eexists; (split; [reflexivity|]); repeat split; reflexivity.
Qed.

(** X15: A successful registration appends one user whose id is [next_id] of
    the users stored before, so ids that were pairwise distinct stay so. *)
Theorem register_keeps_ids_distinct (username password : string) (s : Session)
    (msg : string) :
  fst (register username password s) = Ok msg ->
  NoDup (map UserInfo.user_id (stored_users s)) ->
  exists user,
    stored_users (snd (register username password s)) = (stored_users s ++ [user])%list
    /\ UserInfo.user_id user = next_id (stored_users s)
    /\ UserInfo.username user = strip username
    /\ NoDup (map UserInfo.user_id (stored_users (snd (register username password s)))).
Proof.
  destruct (register_cases username password s) as (r & s' & -> & Hcase).
  cbn [fst snd]. intros -> Hdistinct.
  destruct Hcase as (_ & _ & _ & ->).
  exists (registered_user username password s).
  unfold stored_users at 1 5. cbn [users_file entries].
  repeat split.
  rewrite map_app. simpl. apply NoDup_app. repeat split.
  - exact Hdistinct.
  - intros x Hx Hnew. apply list_elem_of_In in Hx.
    apply list_elem_of_singleton in Hnew. subst x.
    now apply next_id_not_in in Hx.
  - apply NoDup_singleton.
Qed.

(** X16: A name that a stored user already holds is refused, and the refusal
    leaves the session as it was. *)
Theorem register_refuses_taken_name (username password : string) (s : Session)
    (u : UserInfo.t) :
  In u (stored_users s) ->
  UserInfo.username u = username ->
  register username password s
  = (Raise (ValueError ("Пользователь '" ++ username ++ "' уже существует")), s).
Proof.
  intros Hin Hname.
  assert (Htaken : name_taken username s = true).
  { unfold name_taken. apply existsb_exists. exists u. split; [exact Hin|].
    now apply String.eqb_eq. }
  unfold name_taken, stored_users in *. unfold register.
  destruct s as [[[users|m1]|] pfs w cu cp]; [|destruct Hin|destruct Hin].
  simpl in Htaken, Hin.
  unfold bind, load_users. cbn [users_file]. now rewrite Htaken.
Qed.

(** X17: The name is compared as given but stored stripped: for a name without
    white space around it, names that were pairwise distinct stay so. *)
Theorem register_keeps_names_distinct (username password : string) (s : Session)
    (msg : string) :
  fst (register username password s) = Ok msg ->
  strip username = username ->
  NoDup (map UserInfo.username (stored_users s)) ->
  NoDup (map UserInfo.username (stored_users (snd (register username password s)))).
Proof.
  destruct (register_cases username password s) as (r & s' & -> & Hcase).
  cbn [fst snd]. intros -> Hstrip Hdistinct.
  destruct Hcase as (Hfree & _ & _ & ->).
  unfold stored_users at 1. cbn [users_file entries].
  rewrite map_app. simpl. rewrite Hstrip. apply NoDup_app. repeat split.
  - exact Hdistinct.
  - intros x Hx Hnew. apply list_elem_of_In in Hx.
    apply list_elem_of_singleton in Hnew. subst x.
    apply in_map_iff in Hx as (u & Hu & Hin).
    unfold name_taken in Hfree.
    assert (Htaken : existsb (fun v => String.eqb (UserInfo.username v) username)
                       (stored_users s) = true).
    { apply existsb_exists. exists u. split; [exact Hin|]. now apply String.eqb_eq. }
    congruence.
  - apply NoDup_singleton.
Qed.

End Accounts.

Lemma register_keeps_ids_distinct_witness :
  exists user,
    stored_users (snd (register (PF := SamplePlatform) "bob" "hunter2" alice_session))
    = (stored_users alice_session ++ [user])%list
    /\ UserInfo.user_id user = next_id (stored_users alice_session)
    /\ UserInfo.username user = strip "bob"
    /\ NoDup (map UserInfo.user_id
                (stored_users (snd (register (PF := SamplePlatform) "bob" "hunter2"
                                      alice_session)))).
Proof.
  refine (register_keeps_ids_distinct (PF := SamplePlatform) "bob" "hunter2"
            alice_session
            (match fst (register (PF := SamplePlatform) "bob" "hunter2" alice_session)
             with Ok m => m | Raise _ => "" end) _ _).
  - vm_compute. reflexivity.
  - vm_compute. repeat constructor. intros Hin. inversion Hin.
Defined.

Lemma register_refuses_taken_name_witness :
  register (PF := SamplePlatform) "alice" "another" alice_session
  = (Raise (ValueError ("Пользователь '" ++ "alice" ++ "' уже существует")),
     alice_session).
Proof.
  refine (register_refuses_taken_name (PF := SamplePlatform) "alice" "another"
            alice_session
            (registered_user (PF := SamplePlatform) "alice" "secret" empty_session)
            _ _).
  - vm_compute. left. reflexivity.
  - vm_compute. reflexivity.
Defined.

Lemma register_keeps_names_distinct_witness :
  NoDup (map UserInfo.username
           (stored_users (snd (register (PF := SamplePlatform) "bob" "hunter2"
                                 alice_session)))).
Proof.
  refine (register_keeps_names_distinct (PF := SamplePlatform) "bob" "hunter2"
            alice_session
            (match fst (register (PF := SamplePlatform) "bob" "hunter2" alice_session)
             with Ok m => m | Raise _ => "" end) _ _ _).
  - vm_compute. reflexivity.
  - vm_compute. reflexivity.
  - vm_compute. repeat constructor. intros Hin. inversion Hin.
Defined.

(** With white space around the name the comparison misses the stored
    name: the same stripped name is stored twice. *)
Example register_padded_name_twice :
  map UserInfo.username
    (stored_users (snd (register (PF := SamplePlatform) " alice" "another"
                          alice_session)))
  = ["alice"; "alice"].
Proof. vm_compute. reflexivity. Qed.

(** * Login *)

Section LoginFacts.

Context {PF : Platform}.

(** [User(...)] on a stored entry: the session is only read. *)
Lemma User_new_stored (uid : Z) (uname password stored_salt : string)
    (date : datetime) (s : Session) :
  User_new uid uname password (Some stored_salt) (Some date) s
  = if (String.length password <? 4)%nat then
      (Raise (ValueError "🔐 Пароль должен содержать минимум 4 символа"), s)
    else if is_empty (strip uname) then
      (Raise (ValueError "👤 Имя пользователя не может быть пустым"), s)
    else
      (Ok {| User._user_id := uid;
             User._username := strip uname;
             User._hashed_password :=
               hash_password password
                 (if is_empty stored_salt then salt_at s else stored_salt);
             User._salt := if is_empty stored_salt then salt_at s else stored_salt;
             User._registration_date := date |}, s).
Proof.
  unfold User_new, validate_password_strength, salt_at.
  destruct (String.length password <? 4)%nat; [reflexivity|].
  unfold bind, lift_result, generate_salt, session_now, bind, ret, raise.
  destruct (is_empty stored_salt); destruct (is_empty (strip uname)); reflexivity.
Qed.

Lemma find_with_hash (h username : string) (users : list UserInfo.t) :
  List.find (fun u => String.eqb (UserInfo.username u) username)
    (map (with_hash h) users)
  = option_map (with_hash h)
      (List.find (fun u => String.eqb (UserInfo.username u) username) users).
Proof.
  induction users as [|u users IH]; simpl; [reflexivity|].
  destruct (String.eqb (UserInfo.username u) username); [reflexivity|exact IH].
Qed.

Lemma hash_blind_bind {A B : Type} (m : M Session A) (k : A -> M Session B) :
  hash_blind m -> (forall a, hash_blind (k a)) -> hash_blind (bind m k).
Proof.
  intros Hm Hk h s. unfold bind. rewrite Hm.
  destruct (m s) as [[a|e] s1]; cbn [fst snd]; [apply Hk|reflexivity].
Qed.

Lemma hash_blind_ret {A : Type} (a : A) : hash_blind (ret a).
Proof. intros h s. reflexivity. Qed.

Lemma hash_blind_load_portfolio (uid : Z) : hash_blind (load_portfolio uid).
Proof.
  intros h s.
  unfold load_portfolio, bind, load_portfolios, with_hashes, lift_result.
  destruct s as [users pfs w cu cp].
  cbn [users_file portfolios_file world _current_user _current_portfolio].
  destruct pfs as [[pfs|m2]|]; [|reflexivity|reflexivity].
  destruct (List.find _ pfs) as [data|]; [|reflexivity].
  destruct (build_wallets _ _); reflexivity.
Qed.

(** The part of [login] that follows the check of the password. *)
Lemma hash_blind_enter (user : User.t) (text : string) :
  hash_blind
    (run set_current_user user;
     do portfolio <- load_portfolio (User._user_id user);
     run set_current_portfolio portfolio;
     ret text).
Proof.
  apply hash_blind_bind; [intros h s; reflexivity|intros _].
  apply hash_blind_bind; [apply hash_blind_load_portfolio|intros portfolio].
  apply hash_blind_bind; [intros h s; reflexivity|intros _].
  apply hash_blind_ret.
Qed.

(** The part of [login] that follows the lookup of the user entry. *)
Lemma login_entry_with_hash (h username password : string) (entry : UserInfo.t)
    (s : Session) :
  (do user <- User_new (UserInfo.user_id (with_hash h entry))
                (UserInfo.username (with_hash h entry)) password
                (Some (UserInfo.salt (with_hash h entry)))
                (Some (UserInfo.registration_date (with_hash h entry)));
   run (if negb (verify_password password user)
             && negb (String.eqb (User._hashed_password user)
                        (UserInfo.hashed_password (with_hash h entry)))
        then raise (ValueError "Неверный пароль")
        else ret tt);
   run set_current_user user;
   do portfolio <- load_portfolio (User._user_id user);
   run set_current_portfolio portfolio;
   ret ("Добро пожаловать, " ++ username ++ "! Вы успешно вошли в систему."))
    (with_hashes h s)
  = (fst ((do user <- User_new (UserInfo.user_id entry)
                        (UserInfo.username entry) password
                        (Some (UserInfo.salt entry))
                        (Some (UserInfo.registration_date entry));
           run (if negb (verify_password password user)
                     && negb (String.eqb (User._hashed_password user)
                                (UserInfo.hashed_password entry))
                then raise (ValueError "Неверный пароль")
                else ret tt);
           run set_current_user user;
           do portfolio <- load_portfolio (User._user_id user);
           run set_current_portfolio portfolio;
           ret ("Добро пожаловать, " ++ username
                ++ "! Вы успешно вошли в систему.")) s),
     with_hashes h
       (snd ((do user <- User_new (UserInfo.user_id entry)
                          (UserInfo.username entry) password
                          (Some (UserInfo.salt entry))
                          (Some (UserInfo.registration_date entry));
              run (if negb (verify_password password user)
                        && negb (String.eqb (User._hashed_password user)
                                   (UserInfo.hashed_password entry))
                   then raise (ValueError "Неверный пароль")
                   else ret tt);
              run set_current_user user;
              do portfolio <- load_portfolio (User._user_id user);
              run set_current_portfolio portfolio;
              ret ("Добро пожаловать, " ++ username
                   ++ "! Вы успешно вошли в систему.")) s))).
Proof.
  cbn [with_hash UserInfo.user_id UserInfo.username UserInfo.salt
       UserInfo.registration_date UserInfo.hashed_password].
  unfold bind at 1 6 11. rewrite !User_new_stored.
  assert (Hsalt : salt_at (with_hashes h s) = salt_at s) by reflexivity.
  rewrite Hsalt.
  destruct (String.length password <? 4)%nat; [reflexivity|].
  destruct (is_empty (strip (UserInfo.username entry))); [reflexivity|].
  unfold verify_password.
  cbn [User._hashed_password User._salt User._user_id].
  rewrite String.eqb_refl. cbn [negb andb].
  unfold bind at 1 5 9. unfold ret at 1 3 5.
  apply hash_blind_enter.
Qed.

(** X18: The outcome of [login] does not depend on the password hashes stored
    in the users document: with every stored hash replaced by any string,
    [login] returns or raises the same and leaves the same session. A
    password is therefore never refused for being wrong. *)
Theorem login_ignores_stored_hash (h username password : string) (s : Session) :
  login username password (with_hashes h s)
  = (fst (login username password s),
     with_hashes h (snd (login username password s))).
Proof.
  unfold login.
  destruct s as [[[users|m1]|] pfs w cu cp].
  - set (S0 := {| users_file := Some (Document users); portfolios_file := pfs;
                  world := w; _current_user := cu; _current_portfolio := cp |}).
    assert (Hhashed : load_users (with_hashes h S0)
                      = (Ok (map (with_hash h) users), with_hashes h S0))
      by reflexivity.
    assert (Hplain : load_users S0 = (Ok users, S0)) by reflexivity.
    rewrite (bind_ok _ _ _ _ _ Hhashed), (bind_ok _ _ _ _ _ Hplain).
    rewrite find_with_hash.
    destruct (List.find _ users) as [entry|]; cbn [option_map]; [|reflexivity].
    apply (login_entry_with_hash h username password entry S0).
  - reflexivity.
  - reflexivity.
Qed.

End LoginFacts.

(** Registered with one password, [alice] is let in with another. *)
Example login_with_another_password :
  fst (login (PF := SamplePlatform) "alice" "not-the-secret" alice_session)
  = Ok "Добро пожаловать, alice! Вы успешно вошли в систему.".
Proof. vm_compute. reflexivity. Qed.

(** The user is made current before the portfolio is loaded: when the
    portfolios file is no JSON document, [login] fails with the new user
    current and the portfolio of the previous one still in memory. *)
Example login_without_portfolio :
  fst (login (PF := SamplePlatform) "alice" "secret" damaged_session)
  = Raise (JSONDecodeError "Expecting value: line 1 column 1 (char 0)")
  /\ _current_user
       (snd (login (PF := SamplePlatform) "alice" "secret" damaged_session))
     = Some (logged_in_user (PF := SamplePlatform) "alice" "secret" empty_session)
  /\ _current_portfolio
       (snd (login (PF := SamplePlatform) "alice" "secret" damaged_session))
     = _current_portfolio damaged_session.
Proof. repeat split; vm_compute; reflexivity. Qed.

(** * Portfolios *)

Section PortfolioFacts.

Context {PF : Platform}.

Lemma build_wallets_rebuilds (items built : list (string * Wallet.t)) :
  NoDup (map fst built ++ map fst items) ->
  Forall (fun item => Wallet.new (fst item) (Wallet.balance (snd item))
                      = Ok (snd item)) items ->
  build_wallets (map (fun item => (fst item, Wallet.balance (snd item))) items)
    built
  = Ok (built ++ items)%list.
Proof.
  revert built. induction items as [|[k w] items IH]; intros built Hkeys Hnew.
  - simpl. now rewrite app_nil_r.
  - apply Forall_cons in Hnew as [Hw Hrest]. simpl in Hw |- *. rewrite Hw.
    assert (Hfresh : ~ In k (map fst built)).
    { intros Hin. apply NoDup_app in Hkeys as (_ & Hdisjoint & _).
      apply (Hdisjoint k); [now apply list_elem_of_In|]. simpl. left. }
    rewrite (dict_set_fresh k w built Hfresh).
    rewrite IH; [now rewrite <- app_assoc| |exact Hrest].
    rewrite map_app. simpl. rewrite <- app_assoc. exact Hkeys.
Qed.

(** [save_portfolio] fails on a portfolios file that is no JSON document,
    leaving everything as it was; otherwise it writes the document with
    the balances of the portfolio. *)
Lemma save_portfolio_value (self : Portfolio.t) (s : Session) :
  save_portfolio self s
  = match portfolios_file s with
    | Some (Malformed msg) => (Raise (JSONDecodeError msg), s)
    | Some (Document _) | None =>
        (Ok tt,
         {| users_file := users_file s;
            portfolios_file :=
              Some (Document (saved_portfolios self (stored_portfolios s)));
            world := world s;
            _current_user := _current_user s;
            _current_portfolio := _current_portfolio s |})
    end.
Proof.
  unfold save_portfolio, saved_portfolios, stored_portfolios, bind,
    load_portfolios, save_portfolios.
  destruct s as [users [[pfs|m2]|] w cu cp];
    cbn [users_file portfolios_file world _current_user _current_portfolio
         entries];
    [|reflexivity|]; destruct (replace_wallets _ _ _); reflexivity.
Qed.

Lemma find_saved (self : Portfolio.t) (portfolios : list PortfolioEntry.t) :
  List.find (fun d => PortfolioEntry.user_id d =? Portfolio._user_id self)
    (saved_portfolios self portfolios)
  = Some {| PortfolioEntry.user_id := Portfolio._user_id self;
            PortfolioEntry.wallets := wallet_balances self |}.
Proof.
  unfold saved_portfolios.
  induction portfolios as [|p rest IH]; simpl.
  - now rewrite Z.eqb_refl.
  - destruct (PortfolioEntry.user_id p =? Portfolio._user_id self) eqn:Hp; simpl.
    + rewrite Hp. apply Z.eqb_eq in Hp. now rewrite Hp.
    + destruct (replace_wallets _ _ rest); simpl; now rewrite Hp.
Qed.

Lemma find_saved_other (self : Portfolio.t) (portfolios : list PortfolioEntry.t)
    (other : Z) :
  other <> Portfolio._user_id self ->
  List.find (fun d => PortfolioEntry.user_id d =? other)
    (saved_portfolios self portfolios)
  = List.find (fun d => PortfolioEntry.user_id d =? other) portfolios.
Proof.
  intros Hother. unfold saved_portfolios.
  assert (Hself : (Portfolio._user_id self =? other) = false)
    by (apply Z.eqb_neq; congruence).
  induction portfolios as [|p rest IH]; simpl.
  - now rewrite Hself.
  - destruct (PortfolioEntry.user_id p =? Portfolio._user_id self) eqn:Hp; simpl.
    + apply Z.eqb_eq in Hp. rewrite Hp, Hself. reflexivity.
    + destruct (replace_wallets _ _ rest); simpl in *;
        destruct (PortfolioEntry.user_id p =? other); auto.
Qed.

Lemma load_portfolio_stored (uid : Z) (s : Session) (portfolios : list PortfolioEntry.t) :
  portfolios_file s = Some (Document portfolios) ->
  load_portfolio uid s
  = (match List.find (fun d => PortfolioEntry.user_id d =? uid) portfolios with
     | None => Portfolio_new uid []
     | Some data =>
         match build_wallets (PortfolioEntry.wallets data) [] with
         | Raise e => Raise e
         | Ok built => Portfolio_new uid built
         end
     end, s).
Proof.
  intros Hfile. unfold load_portfolio, bind, load_portfolios, lift_result.
  rewrite Hfile. destruct (List.find _ portfolios) as [data|]; [|reflexivity].
  destruct (build_wallets _ _); reflexivity.
Qed.

(** X20: A portfolio of a valid user whose wallets are as [Wallet] builds them,
    one per key, is read back by [load_portfolio] exactly as
    [save_portfolio] was given it. When [save_portfolio] fails, on a
    portfolios file that is no JSON document, [load_portfolio] fails with
    the same error. *)
Theorem save_then_load_portfolio (self : Portfolio.t) (s : Session) :
  0 < Portfolio._user_id self ->
  well_formed_wallets (Portfolio._wallets self) ->
  load_portfolio (Portfolio._user_id self) (snd (save_portfolio self s))
  = (match fst (save_portfolio self s) with
     | Ok _ => Ok self
     | Raise e => Raise e
     end, snd (save_portfolio self s)).
Proof.
  intros Hid [Hkeys Hnew]. rewrite save_portfolio_value.
  destruct (portfolios_file s) as [[pfs|m2]|] eqn:Hfile; cbn [fst snd].
  2:{ unfold load_portfolio, bind, load_portfolios. now rewrite Hfile. }
  all: rewrite (load_portfolio_stored _ _
                  (saved_portfolios self (stored_portfolios s))) by reflexivity;
    rewrite find_saved; cbn [PortfolioEntry.wallets]; unfold wallet_balances;
    rewrite (build_wallets_rebuilds (Portfolio._wallets self) [] Hkeys Hnew);
    cbn [app]; unfold Portfolio_new;
    (assert (Hpos : (Portfolio._user_id self <=? 0) = false)
       by (apply Z.leb_gt; lia));
    rewrite Hpos; destruct self; reflexivity.
Qed.

(** X21: Saving the portfolio of one user changes what [load_portfolio] returns
    for no other user, and leaves the users document as it was. *)
Theorem save_portfolio_other_users (self : Portfolio.t) (s : Session) (other : Z) :
  other <> Portfolio._user_id self ->
  fst (load_portfolio other (snd (save_portfolio self s)))
  = fst (load_portfolio other s)
  /\ users_file (snd (save_portfolio self s)) = users_file s.
Proof.
  intros Hother. rewrite save_portfolio_value.
  assert (Hloaded : forall s0 portfolios,
            portfolios_file s0 = Some (Document portfolios) ->
            fst (load_portfolio other s0)
            = match List.find (fun d => PortfolioEntry.user_id d =? other) portfolios
              with
              | None => Portfolio_new other []
              | Some data =>
                  match build_wallets (PortfolioEntry.wallets data) [] with
                  | Raise e => Raise e
                  | Ok built => Portfolio_new other built
                  end
              end).
  { intros s0 portfolios Hfile.
    now rewrite (load_portfolio_stored other s0 portfolios Hfile). }
  destruct (portfolios_file s) as [[pfs|m2]|] eqn:Hfile; cbn [snd users_file];
    (split; [|reflexivity]); try reflexivity.
  - rewrite (Hloaded _ (saved_portfolios self (stored_portfolios s)))
      by reflexivity.
    rewrite (find_saved_other self (stored_portfolios s) other Hother).
    rewrite (Hloaded s pfs Hfile).
    unfold stored_portfolios. now rewrite Hfile.
  - rewrite (Hloaded _ (saved_portfolios self (stored_portfolios s)))
      by reflexivity.
    rewrite (find_saved_other self (stored_portfolios s) other Hother).
    unfold stored_portfolios. rewrite Hfile. cbn [entries List.find].
    unfold load_portfolio, bind, load_portfolios. rewrite Hfile. reflexivity.
Qed.

Lemma wallet_new_zero (code0 : string) :
  is_empty code0 = false ->
  Wallet.new code0 0%float
  = Ok {| Wallet.currency_code := upper code0;
          Wallet._balance := {| WalletBalance.currency := upper code0;
                                WalletBalance.amount := 0%float |} |}.
Proof.
  intros Hcode. unfold Wallet.new, WalletBalance.new. rewrite Hcode. reflexivity.
Qed.

(** X22: After [add_currency] the new wallet is found under its code in any
    letter case, holds a zero balance, and no other wallet has moved; the
    code had no wallet before. *)
Theorem add_currency_then_get_wallet (code0 : string) (self self' : Portfolio.t)
    (wallet : Wallet.t) :
  add_currency code0 self = Ok (self', wallet) ->
  (forall c, upper c = upper code0 -> get_wallet c self' = Ok wallet)
  /\ (forall c, upper c <> upper code0 -> get_wallet c self' = get_wallet c self)
  /\ Wallet.balance wallet = 0%float
  /\ Wallet.currency_code wallet = upper code0
  /\ get_wallet code0 self = Raise (CurrencyNotFoundError (upper code0)).
Proof.
  unfold add_currency, get_wallet.
  destruct (dict_get (upper code0) (Portfolio._wallets self)) eqn:Hget;
    [discriminate|].
  destruct (is_empty (upper code0)) eqn:Hcode.
  { unfold Wallet.new. rewrite Hcode. discriminate. }
  rewrite (wallet_new_zero (upper code0) Hcode), upper_idem.
  intros H. injection H as <- <-. cbn [Portfolio._wallets].
  repeat split.
  - intros c Hc. rewrite Hc. now rewrite dict_get_set_eq.
  - intros c Hc. rewrite dict_get_set_ne by congruence. reflexivity.
Qed.

(** X23: A currency that already has a wallet is refused. *)
Theorem add_currency_refuses_existing (code0 : string) (self : Portfolio.t)
    (wallet : Wallet.t) :
  get_wallet code0 self = Ok wallet ->
  add_currency code0 self
  = Raise (ValueError ("💼 Кошелёк для валюты " ++ upper code0 ++ " уже существует")).
Proof.
  unfold add_currency, get_wallet.
  destruct (dict_get (upper code0) (Portfolio._wallets self)); [reflexivity|].
  discriminate.
Qed.

End PortfolioFacts.

Lemma save_then_load_portfolio_witness :
  load_portfolio (Portfolio._user_id alice_portfolio)
    (snd (save_portfolio alice_portfolio alice_session))
  = (Ok alice_portfolio, snd (save_portfolio alice_portfolio alice_session)).
Proof.
  apply (save_then_load_portfolio alice_portfolio alice_session).
  - reflexivity.
  - split.
    + vm_compute. repeat constructor. intros Hin. inversion Hin.
    + repeat constructor.
Defined.

Lemma save_portfolio_other_users_witness :
  fst (load_portfolio 2 (snd (save_portfolio alice_portfolio alice_session)))
  = fst (load_portfolio 2 alice_session)
  /\ users_file (snd (save_portfolio alice_portfolio alice_session))
     = users_file alice_session.
Proof.
  apply (save_portfolio_other_users alice_portfolio alice_session 2).
  discriminate.
Defined.

Lemma add_currency_then_get_wallet_witness :
  (forall c, upper c = upper "btc" ->
     get_wallet c
       (with_wallet "BTC"
          {| Wallet.currency_code := "BTC";
             Wallet._balance := {| WalletBalance.currency := "BTC";
                                   WalletBalance.amount := 0%float |} |}
          alice_portfolio)
     = Ok {| Wallet.currency_code := "BTC";
             Wallet._balance := {| WalletBalance.currency := "BTC";
                                   WalletBalance.amount := 0%float |} |})
  /\ get_wallet "btc" alice_portfolio = Raise (CurrencyNotFoundError (upper "btc")).
Proof.
  destruct (add_currency_then_get_wallet "btc" alice_portfolio
              (with_wallet "BTC"
                 {| Wallet.currency_code := "BTC";
                    Wallet._balance := {| WalletBalance.currency := "BTC";
                                          WalletBalance.amount := 0%float |} |}
                 alice_portfolio)
              {| Wallet.currency_code := "BTC";
                 Wallet._balance := {| WalletBalance.currency := "BTC";
                                       WalletBalance.amount := 0%float |} |})
    as (Hfound & _ & _ & _ & Hbefore).
  - vm_compute. reflexivity.
  - split; [exact Hfound|exact Hbefore].
Defined.

Lemma add_currency_refuses_existing_witness :
  add_currency "usd" alice_portfolio
  = Raise (ValueError ("💼 Кошелёк для валюты " ++ upper "usd" ++ " уже существует")).
Proof.
  apply (add_currency_refuses_existing "usd" alice_portfolio (usd_wallet 100%float)).
  vm_compute. reflexivity.
Defined.

(** * Quoting a rate *)

Section RateUseCase.

Context {PF : Platform} {PS : ParserService}.

Lemma get_currency_error (c : string) (reg : CurrencyRegistry.Registry) (e : exn) :
  fst (get_currency c reg) = Raise e -> e = CurrencyNotFoundError (strip (upper c)).
Proof.
  unfold get_currency, CurrencyRegistry.get.
  destruct (reg !! strip (upper c)); simpl; [discriminate|congruence].
Qed.

(** The three ways [get_rate] ends. *)
Lemma get_rate_cases (frm to : string) (s : Session) :
  (exists c, get_rate frm to s = (Raise (CurrencyNotFoundError c), s))
  \/ (exists msg s', get_rate frm to s = (Raise (ApiRequestError msg), s'))
  \/ (exists text s', get_rate frm to s = (Ok text, s')).
Proof.
  unfold get_rate, bind, lift_result, try_except, ret, raise.
  destruct (fst (get_currency (upper frm) _registry)) as [c1|e1] eqn:H1.
  2:{ apply get_currency_error in H1. subst e1. left. eexists. reflexivity. }
  destruct (fst (get_currency (upper to) _registry)) as [c2|e2] eqn:H2.
  2:{ apply get_currency_error in H2. subst e2. left. eexists. reflexivity. }
  right.
  destruct (lift_world (get_exchange_rate (upper frm) (upper to)) s)
    as [[found|e0] s1].
  - destruct (true_div_one (fst found)) as [inv|e0].
    + right. eexists. eexists. reflexivity.
    + left. eexists. eexists. reflexivity.
  - left. eexists. eexists. reflexivity.
Qed.

(** X24: Only two kinds of error leave [get_rate]: [CurrencyNotFoundError] for
    a code the registry does not know, raised before anything is looked
    up, the session being left as it was; and [ApiRequestError], into
    which every failure of the rate lookup is turned, a missing pair
    and a zero rate included. *)
Theorem get_rate_errors (frm to : string) (s : Session) (e : exn) :
  fst (get_rate frm to s) = Raise e ->
  (is_CurrencyNotFoundError e = true /\ snd (get_rate frm to s) = s)
  \/ is_ApiRequestError e = true.
Proof.
  destruct (get_rate_cases frm to s) as [(c & ->)|[(msg & s' & ->)|(text & s' & ->)]];
    cbn [fst snd]; intros H.
  - injection H as <-. left. split; reflexivity.
  - injection H as <-. right. reflexivity.
  - discriminate H.
Qed.

End RateUseCase.

(** * Buying *)

Section BuyFacts.

Context {PF : Platform} {PS : ParserService}.

Lemma same_accounts_refl (s : Session) : same_accounts s s.
Proof. unfold same_accounts. auto. Qed.

Lemma lift_world_accounts {A : Type} (m : M World A) (s : Session) :
  same_accounts s (snd (lift_world m s)).
Proof.
  unfold lift_world, same_accounts. destruct (m (world s)); simpl. auto.
Qed.

Lemma registered_code_nonempty (c : string) (cur : BaseCurrency) :
  fst (get_currency c _registry) = Ok cur -> is_empty (upper c) = false.
Proof.
  destruct c; [vm_compute; discriminate|reflexivity].
Qed.

(** Closes a branch of [buy] that raises in a session [H] relates to the
    initial one. *)
Ltac refuse_with H :=
  eexists; eexists; split; [reflexivity|left; exact H].

Lemma buy_cases (currency : string) (amount : float) (s : Session) :
  exists r s',
    buy currency amount s = (r, s')
    /\ match r with
       | Raise e =>
           same_accounts s s'
           \/ (exists portfolio msg,
                 portfolios_file s = Some (Malformed msg)
                 /\ _current_portfolio s' = Some portfolio
                 /\ save_portfolio portfolio s' = (Raise e, s')
                 /\ portfolios_file s' = portfolios_file s
                 /\ users_file s' = users_file s
                 /\ _current_user s' = _current_user s)
       | Ok _ =>
           exists portfolio,
             _current_portfolio s' = Some portfolio
             /\ portfolios_file s'
                = Some (Document (saved_portfolios portfolio (stored_portfolios s)))
             /\ users_file s' = users_file s
             /\ _current_user s' = _current_user s
       end.
Proof.
  pose proof (same_accounts_refl s) as Hsame.
  unfold buy. unfold bind at 1. unfold get_session at 1. cbv beta iota.
  destruct (_current_portfolio s) as [pf|] eqn:Hpf; [|refuse_with Hsame].
  destruct (_current_user s) as [u|] eqn:Hu; [|refuse_with Hsame].
  destruct (PrimFloat.leb amount 0) eqn:Hamount; [refuse_with Hsame|].
  cbv zeta.
  destruct (String.eqb (upper currency) BASE_CURRENCY); [refuse_with Hsame|].
  unfold bind at 1. unfold lift_result at 1. cbv beta iota.
  destruct (fst (get_currency (upper currency) _registry)) as [cur|e1] eqn:Hcur;
    [|refuse_with Hsame].
  apply registered_code_nonempty in Hcur.
  unfold bind at 1. unfold try_except at 1. cbv beta iota.
  pose proof (lift_world_accounts
                (get_exchange_rate (upper currency) BASE_CURRENCY) s) as Hframe.
  destruct (lift_world (get_exchange_rate (upper currency) BASE_CURRENCY) s)
    as [[found|e2] s1]; cbn [snd] in Hframe.
  2:{ destruct (is_CurrencyNotFoundError e2 || is_ApiRequestError e2);
        refuse_with Hframe. }
  unfold bind at 1. unfold try_except at 1. unfold lift_result at 1.
  cbv beta iota.
  destruct (get_wallet BASE_CURRENCY pf) as [base_wallet|e3] eqn:Hbase.
  2:{ destruct (is_CurrencyNotFoundError e3); refuse_with Hframe. }
  destruct (PrimFloat.ltb (Wallet.balance base_wallet)
              (PrimFloat.mul amount (fst found))); [refuse_with Hframe|].
  unfold bind at 1. unfold lift_result at 1. cbv beta iota.
  destruct (Wallet.withdraw (PrimFloat.mul amount (fst found)) base_wallet)
    as [base_wallet'|e4]; [|refuse_with Hframe].
  set (pf1 := with_wallet (upper BASE_CURRENCY) base_wallet' pf).
  unfold bind at 1. unfold set_current_portfolio at 1. cbv beta iota.
  unfold bind at 1. unfold try_except at 1.
  unfold bind at 1. unfold lift_result at 1. cbv beta iota.
  assert (Hadded : exists pf2 wallet,
            (let (r0, s'0) :=
               match get_wallet (upper currency) pf1 with
               | Ok a =>
                   ret (pf1, a)
                     {| users_file := users_file s1;
                        portfolios_file := portfolios_file s1;
                        world := world s1;
                        _current_user := _current_user s1;
                        _current_portfolio := Some pf1 |}
               | Raise e =>
                   (Raise e,
                    {| users_file := users_file s1;
                       portfolios_file := portfolios_file s1;
                       world := world s1;
                       _current_user := _current_user s1;
                       _current_portfolio := Some pf1 |})
               end in
             match r0 with
             | Ok a => (Ok a, s'0)
             | Raise e =>
                 if is_CurrencyNotFoundError e
                 then lift_result (add_currency (upper currency) pf1) s'0
                 else (Raise e, s'0)
             end)
            = (Ok (pf2, wallet),
               {| users_file := users_file s1;
                  portfolios_file := portfolios_file s1;
                  world := world s1;
                  _current_user := _current_user s1;
                  _current_portfolio := Some pf1 |})).
  { unfold get_wallet, add_currency, lift_result.
    destruct (dict_get (upper (upper currency)) (Portfolio._wallets pf1)) as [w|].
    - eexists. eexists. reflexivity.
    - rewrite (wallet_new_zero (upper (upper currency)) Hcur).
      eexists. eexists. reflexivity. }
  destruct Hadded as (pf2 & wallet & ->).
  unfold bind at 1. unfold set_current_portfolio at 1. cbv beta iota.
  cbn [fst snd].
  unfold bind at 1. unfold lift_result at 1. cbv beta iota.
  assert (Hdeposit : exists wallet', Wallet.deposit amount wallet = Ok wallet').
  { unfold Wallet.deposit, WalletBalance.add. rewrite Hamount.
    eexists. reflexivity. }
  destruct Hdeposit as [wallet' ->].
  unfold bind at 1. unfold set_current_portfolio at 1. cbv beta iota.
  unfold bind at 1. rewrite save_portfolio_value. unfold ret.
  destruct Hframe as (_ & Hpfs & Husers & Huser).
  unfold stored_portfolios.
  cbn [portfolios_file users_file world _current_user _current_portfolio].
  rewrite Hpfs, Husers, Huser.
  destruct (portfolios_file s) as [[pfs|msg]|] eqn:Hfile.
  - eexists. eexists. split; [reflexivity|]. eexists.
    cbn [_current_portfolio portfolios_file users_file _current_user]. auto.
  - eexists. eexists. split; [reflexivity|]. right. eexists. exists msg.
    cbn [_current_portfolio portfolios_file users_file _current_user].
    repeat split; auto.
  - eexists. eexists. split; [reflexivity|]. eexists.
    cbn [_current_portfolio portfolios_file users_file _current_user]. auto.
Qed.

(** X25: A purchase that fails leaves the portfolio in memory, the user and
    the two files as they were, unless it is the saving of the portfolio
    that fails. Every check comes before the first wallet is touched, but
    [save_portfolio] runs after the wallets have been changed: when it
    raises, its error leaves [buy], the portfolio in memory is the one
    that could not be saved, and the files and the user are as they
    were. *)
Theorem buy_fails_cleanly_or_on_save (currency : string) (amount : float)
    (s : Session) (e : exn) :
  fst (buy currency amount s) = Raise e ->
  let s' := snd (buy currency amount s) in
  same_accounts s s'
  \/ exists portfolio,
       _current_portfolio s' = Some portfolio
       /\ save_portfolio portfolio s' = (Raise e, s')
       /\ portfolios_file s' = portfolios_file s
       /\ users_file s' = users_file s
       /\ _current_user s' = _current_user s.
Proof.
  destruct (buy_cases currency amount s) as (r & s' & -> & Hcase).
  cbn [fst snd]. intros ->.
  destruct Hcase as [Hsame|(portfolio & msg & _ & Hcase)].
  - left. exact Hsame.
  - right. exists portfolio. exact Hcase.
Qed.

(** X26: After a purchase that succeeds, the portfolios document holds the
    balances of the portfolio in memory under the id of that portfolio;
    the users document and the user in memory are as before. *)
Theorem buy_saves_portfolio (currency : string) (amount : float)
    (s : Session) (text : string) :
  fst (buy currency amount s) = Ok text ->
  exists portfolio,
    _current_portfolio (snd (buy currency amount s)) = Some portfolio
    /\ portfolios_file (snd (buy currency amount s))
       = Some (Document (saved_portfolios portfolio (stored_portfolios s)))
    /\ users_file (snd (buy currency amount s)) = users_file s
    /\ _current_user (snd (buy currency amount s)) = _current_user s.
Proof.
  destruct (buy_cases currency amount s) as (r & s' & -> & Hcase).
  cbn [fst snd]. intros ->. exact Hcase.
Qed.

End BuyFacts.


Lemma get_rate_errors_witness :
  (is_CurrencyNotFoundError (CurrencyNotFoundError "DOGE") = true
   /\ snd (get_rate (PF := SamplePlatform) (PS := SpecParserService)
             "doge" "usd" alice_session)
      = alice_session)
  \/ is_ApiRequestError (CurrencyNotFoundError "DOGE") = true.
Proof.
  apply (get_rate_errors (PF := SamplePlatform) (PS := SpecParserService)
           "doge" "usd" alice_session).
  vm_compute. reflexivity.
Defined.

(** A pair of registered currencies that the cache cannot quote and the
    providers do not cover is reported as [ApiRequestError]. *)
Example get_rate_missing_pair :
  fst (get_rate (PF := SamplePlatform) (PS := SpecParserService)
         "eur" "gbp" alice_session)
  = Raise (ApiRequestError "EUR→GBP").
Proof. vm_compute. reflexivity. Qed.

(** A purchase that only the malformed portfolios file stops. *)
Lemma buy_fails_cleanly_or_on_save_witness :
  same_accounts damaged_session
    (snd (buy (PF := SamplePlatform) (PS := SpecParserService)
            "btc" small_amount damaged_session))
  \/ exists portfolio,
       _current_portfolio
         (snd (buy (PF := SamplePlatform) (PS := SpecParserService)
                 "btc" small_amount damaged_session))
       = Some portfolio
       /\ save_portfolio portfolio
            (snd (buy (PF := SamplePlatform) (PS := SpecParserService)
                    "btc" small_amount damaged_session))
          = (Raise (JSONDecodeError "Expecting value: line 1 column 1 (char 0)"),
             snd (buy (PF := SamplePlatform) (PS := SpecParserService)
                    "btc" small_amount damaged_session))
       /\ portfolios_file
            (snd (buy (PF := SamplePlatform) (PS := SpecParserService)
                    "btc" small_amount damaged_session))
          = portfolios_file damaged_session
       /\ users_file
            (snd (buy (PF := SamplePlatform) (PS := SpecParserService)
                    "btc" small_amount damaged_session))
          = users_file damaged_session
       /\ _current_user
            (snd (buy (PF := SamplePlatform) (PS := SpecParserService)
                    "btc" small_amount damaged_session))
          = _current_user damaged_session.
Proof.
  apply (buy_fails_cleanly_or_on_save (PF := SamplePlatform)
           (PS := SpecParserService) "btc" small_amount damaged_session
           (JSONDecodeError "Expecting value: line 1 column 1 (char 0)")).
  vm_compute. reflexivity.
Defined.

(** A purchase beyond the funds is refused with the accounts as they
    were. *)
Example buy_beyond_funds :
  fst (buy (PF := SamplePlatform) (PS := SpecParserService)
         "btc" 1%float funded_session)
  = Raise (InsufficientFundsError 100%float 50000%float "USD")
  /\ same_accounts funded_session
       (snd (buy (PF := SamplePlatform) (PS := SpecParserService)
               "btc" 1%float funded_session)).
Proof. split; [vm_compute; reflexivity|]. repeat split. Qed.

(** The purchase that the malformed portfolios file stops: the error of
    [json.load] escapes, the file is as it was, and the portfolio in
    memory has paid for the coins and holds them. *)
Example buy_unsaved_purchase :
  fst (buy (PF := SamplePlatform) (PS := SpecParserService)
         "btc" small_amount damaged_session)
  = Raise (JSONDecodeError "Expecting value: line 1 column 1 (char 0)")
  /\ option_map wallet_balances (_current_portfolio damaged_session)
     = Some [("USD", 100%float)]
  /\ option_map wallet_balances
       (_current_portfolio
          (snd (buy (PF := SamplePlatform) (PS := SpecParserService)
                  "btc" small_amount damaged_session)))
     = Some [("USD", 51.171875%float); ("BTC", small_amount)]
  /\ portfolios_file
       (snd (buy (PF := SamplePlatform) (PS := SpecParserService)
               "btc" small_amount damaged_session))
     = portfolios_file damaged_session.
Proof. repeat split; vm_compute; reflexivity. Qed.

Lemma buy_saves_portfolio_witness :
  exists portfolio,
    _current_portfolio
      (snd (buy (PF := SamplePlatform) (PS := SpecParserService)
              "btc" small_amount funded_session))
    = Some portfolio
    /\ portfolios_file
         (snd (buy (PF := SamplePlatform) (PS := SpecParserService)
                 "btc" small_amount funded_session))
       = Some (Document
                 (saved_portfolios portfolio (stored_portfolios funded_session)))
    /\ users_file
         (snd (buy (PF := SamplePlatform) (PS := SpecParserService)
                 "btc" small_amount funded_session))
       = users_file funded_session
    /\ _current_user
         (snd (buy (PF := SamplePlatform) (PS := SpecParserService)
                 "btc" small_amount funded_session))
       = _current_user funded_session.
Proof.
  refine (buy_saves_portfolio (PF := SamplePlatform) (PS := SpecParserService)
            "btc" small_amount funded_session
            (match fst (buy (PF := SamplePlatform) (PS := SpecParserService)
                          "btc" small_amount funded_session)
             with Ok text => text | Raise _ => "" end) _).
  vm_compute. reflexivity.
Defined.

(** The purchase of the example: 48.828125 USD leave the base wallet and
    1/1024 BTC enter a new wallet. *)
Example buy_small_amount :
  option_map wallet_balances
    (_current_portfolio
       (snd (buy (PF := SamplePlatform) (PS := SpecParserService)
               "btc" small_amount funded_session)))
  = Some [("USD", 51.171875%float); ("BTC", small_amount)].
Proof. vm_compute. reflexivity. Qed.

(** * Registration followed by login *)

Section FirstLogin.

Context {PF : Platform}.

Lemma find_last {A : Type} (p : A -> bool) (items : list A) (x : A) :
  (forall y, In y items -> p y = false) ->
  p x = true ->
  List.find p (items ++ [x]) = Some x.
Proof.
  intros Hnone Hx. induction items as [|y items IH]; simpl.
  - now rewrite Hx.
  - rewrite (Hnone y) by (now left). apply IH. intros z Hz. apply Hnone. now right.
Qed.

(** X19: A user who has just registered under a name without white space
    around it is let in, under the new id, with a portfolio of one empty
    wallet in the base currency: provided the id is positive, the base
    currency is configured and no portfolio entry carried the id before. *)
Theorem register_then_login (username password : string) (s : Session)
    (msg : string) :
  fst (register username password s) = Ok msg ->
  strip username = username ->
  0 < next_id (stored_users s) ->
  is_empty BASE_CURRENCY = false ->
  (forall p, In p (stored_portfolios s) ->
             PortfolioEntry.user_id p <> next_id (stored_users s)) ->
  let s1 := snd (register username password s) in
  fst (login username password s1)
  = Ok ("Добро пожаловать, " ++ username ++ "! Вы успешно вошли в систему.")
  /\ _current_user (snd (login username password s1))
     = Some (logged_in_user username password s)
  /\ _current_portfolio (snd (login username password s1))
     = Some (initial_portfolio s).
Proof.
  destruct (register_cases username password s) as (r & s1 & -> & Hcase).
  cbn [fst snd]. intros -> Hstrip Hid Hbase Hnew.
  destruct Hcase as (Hfree & Hlen & Hname & ->).
  set (s1 := {| users_file :=
                  Some (Document
                          (stored_users s ++ [registered_user username password s])%list);
                portfolios_file :=
                  Some (Document (stored_portfolios s ++ [initial_entry s])%list);
                world := world s; _current_user := _current_user s;
                _current_portfolio := _current_portfolio s |}).
  assert (Hlogin :
            login username password s1
            = (Ok ("Добро пожаловать, " ++ username
                   ++ "! Вы успешно вошли в систему."),
               {| users_file := users_file s1;
                  portfolios_file := portfolios_file s1;
                  world := world s1;
                  _current_user := Some (logged_in_user username password s);
                  _current_portfolio := Some (initial_portfolio s) |})).
  { unfold login.
    assert (Hload : load_users s1
                    = (Ok (stored_users s ++ [registered_user username password s])%list,
                       s1)) by reflexivity.
    rewrite (bind_ok _ _ _ _ _ Hload).
    rewrite (find_last _ (stored_users s) (registered_user username password s)).
    2:{ intros u Hu. unfold name_taken in Hfree.
        destruct (String.eqb (UserInfo.username u) username) eqn:Heq; [|reflexivity].
        assert (Htaken : existsb (fun v => String.eqb (UserInfo.username v) username)
                           (stored_users s) = true)
          by (apply existsb_exists; eauto).
        congruence. }
    2:{ cbn [registered_user UserInfo.username]. rewrite Hstrip.
        apply String.eqb_refl. }
    cbn [registered_user UserInfo.user_id UserInfo.username UserInfo.salt
         UserInfo.registration_date UserInfo.hashed_password].
    unfold bind at 1. rewrite User_new_stored. rewrite Hlen.
    rewrite strip_idem, Hname.
    assert (Hsalt : (if is_empty (salt_at s) then salt_at s1 else salt_at s)
                    = salt_at s) by (destruct (is_empty (salt_at s)); reflexivity).
    rewrite Hsalt. unfold verify_password.
    cbn [User._hashed_password User._salt User._user_id].
    rewrite String.eqb_refl. cbn [negb andb].
    unfold bind at 1. unfold ret at 1.
    unfold bind at 1. unfold set_current_user at 1.
    unfold bind at 1.
    rewrite (load_portfolio_stored _ _ (stored_portfolios s ++ [initial_entry s])%list)
      by reflexivity.
    rewrite (find_last _ (stored_portfolios s) (initial_entry s)).
    2:{ intros p Hp. apply Z.eqb_neq. now apply Hnew. }
    2:{ cbn [initial_entry PortfolioEntry.user_id]. apply Z.eqb_refl. }
    cbn [initial_entry PortfolioEntry.wallets build_wallets].
    rewrite (wallet_new_zero BASE_CURRENCY Hbase). cbn [dict_set].
    unfold Portfolio_new.
    assert (Hpos : (next_id (stored_users s) <=? 0) = false) by (apply Z.leb_gt; lia).
    rewrite Hpos.
    unfold bind, set_current_portfolio, ret, lift_result.
    unfold logged_in_user, initial_portfolio. rewrite Hstrip. reflexivity. }
  rewrite Hlogin. cbn [fst snd _current_user _current_portfolio]. auto.
Qed.

End FirstLogin.

Lemma register_then_login_witness :
  fst (login (PF := SamplePlatform) "alice" "secret" alice_session)
  = Ok ("Добро пожаловать, " ++ "alice" ++ "! Вы успешно вошли в систему.")
  /\ _current_user (snd (login (PF := SamplePlatform) "alice" "secret" alice_session))
     = Some (logged_in_user (PF := SamplePlatform) "alice" "secret" empty_session)
  /\ _current_portfolio
       (snd (login (PF := SamplePlatform) "alice" "secret" alice_session))
     = Some (initial_portfolio (PF := SamplePlatform) empty_session).
Proof.
  refine (register_then_login (PF := SamplePlatform) "alice" "secret" empty_session
            (match fst (register (PF := SamplePlatform) "alice" "secret" empty_session)
             with Ok m => m | Raise _ => "" end) _ _ _ _ _).
  - vm_compute. reflexivity.
  - vm_compute. reflexivity.
  - vm_compute. reflexivity.
  - vm_compute. reflexivity.
  - intros p Hp. destruct Hp.
Defined.
